(** * Blue/Green deployment log watcher (watcher/watcher.py)

    A shallow embedding of the [LogWatcher] class: the line parser, the
    failover detector, the sliding-window error-rate detector, the alert
    cooldown gate and the body of the monitoring loop, followed by the
    properties of these operations.

    Conventions of the embedding.
    - A Python [str] is a [string]; characters are the code points below 256,
      where [\d] is the ten ASCII digits and [\s] / [str.strip] whitespace is
      9-13, 28-32, 133 and 160.
    - A Python [float] is a primitive binary64 [float]; the arithmetic of the
      source ([/], [*], [-], [<], [>]) is the IEEE arithmetic of [PrimFloat].
    - [self] is the record [LogWatcher]; a method takes it and returns the
      updated record next to its result.
    - What a method reads from outside ([time.time()], [datetime.now()], the
      reply of [requests.post]) is an argument of its model; what it sends
      out (the posted Slack message) is returned as a list.
    - An exception that leaves a method is the [Raises] result of its
      model, with the state the method had reached: the
      [ZeroDivisionError] of [check_error_rate] and the [OverflowError] of
      [can_send_alert]. What a method catches itself shows in the value it
      returns.
    - [print] calls write to the console only and are left out. *)

From Stdlib Require Import ZArith Bool List String Ascii Lia.
From Stdlib Require Import PrimFloat SpecFloat FloatOps.
From stdpp Require Import gmap strings.

Local Open Scope string_scope.
Local Open Scope Z_scope.

(** ** Python strings *)

Module PyStr.

Definition dquote : ascii := ascii_of_nat 34.

(** [c.isspace()], also the class [\s] of [re]. *)
Definition isspace (c : ascii) : bool :=
  let n := nat_of_ascii c in
  ((9 <=? n) && (n <=? 13) || (28 <=? n) && (n <=? 32) || (n =? 133) || (n =? 160))%nat.

(** The class [\d] of [re]. *)
Definition isdecimal (c : ascii) : bool :=
  let n := nat_of_ascii c in ((48 <=? n) && (n <=? 57))%nat.

Fixpoint lstrip (s : string) : string :=
  match s with
  | String c s' => if isspace c then lstrip s' else s
  | EmptyString => EmptyString
  end.

Fixpoint rstrip (s : string) : string :=
  match s with
  | EmptyString => EmptyString
  | String c s' =>
      match rstrip s' with
      | EmptyString => if isspace c then EmptyString else String c EmptyString
      | r => String c r
      end
  end.

(** [s.strip()] *)
Definition strip (s : string) : string := rstrip (lstrip s).

(** Truth value of a string: [bool(s)]. *)
Definition truthy (s : string) : bool :=
  match s with EmptyString => false | String _ _ => true end.

(** Truth value of a string-or-[None]. *)
Definition truthy_opt (o : option string) : bool :=
  match o with Some s => truthy s | None => false end.

(** [s.startswith(c)] for a one-character prefix. *)
Definition startswith (s : string) (c : ascii) : bool :=
  match s with String a _ => Ascii.eqb a c | EmptyString => false end.

End PyStr.

(** ** The regular expressions of [parse_log_line]

    The five patterns are a literal followed by one group: either a run of
    characters other than the double quote, closed by a double quote, or a
    greedy, non-empty run of characters of one class that ends the pattern.
    Greedy matching of such a group never needs to back off, so matching at
    one position is [match_literal] followed by [span]. *)

Module Re.

(** The rest of [s] after the literal [lit], when [s] starts with it. *)
Fixpoint match_literal (lit s : string) : option string :=
  match lit, s with
  | EmptyString, _ => Some s
  | String a lit', String b s' =>
      if Ascii.eqb a b then match_literal lit' s' else None
  | String _ _, EmptyString => None
  end.

(** Longest prefix of [s] whose characters are all in [cls], and the rest. *)
Fixpoint span (cls : ascii -> bool) (s : string) : string * string :=
  match s with
  | String c s' =>
      if cls c then let (g, r) := span cls s' in (String c g, r)
      else (EmptyString, s)
  | EmptyString => (EmptyString, EmptyString)
  end.

(** [lit(cls+)] anchored at the start of [s]; the value is group 1. *)
Definition match_plus (lit : string) (cls : ascii -> bool) (s : string)
  : option string :=
  match match_literal lit s with
  | Some r =>
      match fst (span cls r) with
      | EmptyString => None
      | g => Some g
      end
  | None => None
  end.

(** [lit], a group of any number of characters other than the double quote,
    and a double quote, anchored at the start of [s]; the value is the
    group. *)
Definition match_quoted (lit : string) (s : string) : option string :=
  match match_literal lit s with
  | Some r =>
      let (g, r') := span (fun c => negb (Ascii.eqb c PyStr.dquote)) r in
      match match_literal (String PyStr.dquote EmptyString) r' with
      | Some _ => Some g
      | None => None
      end
  | None => None
  end.

(** [re.search]: the match at the leftmost position where there is one. *)
Fixpoint search (m : string -> option string) (s : string) : option string :=
  match m s with
  | Some g => Some g
  | None =>
      match s with
      | String _ s' => search m s'
      | EmptyString => None
      end
  end.

Definition quote_after (key : string) : string :=
  key ++ String PyStr.dquote EmptyString.

(** The pattern for [pool=], its value between double quotes. *)
Definition pool_pattern : string -> option string :=
  match_quoted (quote_after "pool=").
(** The pattern for [release=], its value between double quotes. *)
Definition release_pattern : string -> option string :=
  match_quoted (quote_after "release=").
(** The class [[\d-]]. *)
Definition digit_or_dash (c : ascii) : bool :=
  PyStr.isdecimal c || Ascii.eqb c "-"%char.
(** The class [[^\s]]. *)
Definition non_space (c : ascii) : bool := negb (PyStr.isspace c).
(** The class [[\d.]]. *)
Definition digit_or_dot (c : ascii) : bool :=
  PyStr.isdecimal c || Ascii.eqb c "."%char.

(** [r'upstream_status=([\d-]+)'] *)
Definition upstream_status_pattern : string -> option string :=
  match_plus "upstream_status=" digit_or_dash.
(** [r'upstream_addr=([^\s]+)'] *)
Definition upstream_addr_pattern : string -> option string :=
  match_plus "upstream_addr=" non_space.
(** [r'request_time=([\d.]+)'] *)
Definition request_time_pattern : string -> option string :=
  match_plus "request_time=" digit_or_dot.

End Re.

(** ** Python floats *)

Module PyFloat.

(** [float(z)] for an integer [z], correctly rounded. *)
Definition of_Z (z : Z) : float :=
  SF2Prim (binary_normalize prec emax z 0 false).

(** The float nearest to [n / d] for [0 <= n] and [0 < d] (ties to even):
    the quotient is taken with more than 60 significant bits and a sticky
    bit for the remainder, then rounded once. *)
Definition of_ratio (n d : Z) : float :=
  if n =? 0 then 0%float
  else
    let k := Z.max 0 (64 + Z.log2 d - Z.log2 n) in
    let q := (n * 2 ^ k) / d in
    let sticky := if (n * 2 ^ k) mod d =? 0 then 0 else 1 in
    SF2Prim (binary_normalize prec emax (2 * q + sticky) (- k - 1) false).

(** [float(z)] as Python converts an integer operand of a float
    operation: the nearest float, and [None], for [OverflowError], when
    that is beyond the largest float. *)
Definition of_int (z : Z) : option float :=
  match binary_normalize prec emax z 0 false with
  | S754_infinity _ => None
  | sf => Some (SF2Prim sf)
  end.

(** [z - x] for an integer [z] and a float [x]: the integer is converted
    first. *)
Definition int_sub (z : Z) (x : float) : option float :=
  match of_int z with
  | Some c => Some (PrimFloat.sub c x)
  | None => None
  end.

(** [a / b] for two non-negative integers below 2^53 ([ZeroDivisionError]
    when [b = 0]): they convert to floats exactly, and the quotient of the
    two floats is then the correctly rounded quotient Python returns. *)
Definition truediv (a b : nat) : option float :=
  match b with
  | O => None
  | S _ => Some (PrimFloat.div (of_Z (Z.of_nat a)) (of_Z (Z.of_nat b)))
  end.

(** [x < c] for a float [x] and an integer [c]: Python compares the exact
    values. *)
Definition lt_int (x : float) (c : Z) : bool :=
  match Prim2SF x with
  | S754_zero _ => 0 <? c
  | S754_infinity s => s
  | S754_nan => false
  | S754_finite s m e =>
      let v := if s then Z.neg m else Z.pos m in
      if 0 <=? e then v * 2 ^ e <? c else v <? c * 2 ^ (- e)
  end.

(** [n / d] rounded to an integer, ties to even ([0 <= n], [0 < d]). *)
Definition round_half_even (n d : Z) : Z :=
  let q := n / d in
  let r := n mod d in
  if 2 * r <? d then q
  else if d <? 2 * r then q + 1
  else if Z.even q then q else q + 1.

(** [round(x, 2)]: the exact value of [x] is rounded to two decimals
    (ties to even) and that decimal is converted back to the nearest
    float. *)
Definition round2 (x : float) : float :=
  match Prim2SF x with
  | S754_finite s m e =>
      let num := Z.pos m * 100 in
      let n := if 0 <=? e then num * 2 ^ e
               else round_half_even num (2 ^ (- e)) in
      let r := of_ratio n 100 in
      if s then PrimFloat.opp r else r
  | _ => x
  end.

Fixpoint digits_value (acc : Z) (s : string) : Z :=
  match s with
  | String c s' => digits_value (10 * acc + (Z.of_nat (nat_of_ascii c) - 48)) s'
  | EmptyString => acc
  end.

(** [float(s)] for a string [s] of digits and dots, which is all the
    pattern [[\d.]+] can capture: [Some] of the correctly rounded value for
    the literals [D+], [D+.], [.D+] and [D+.D+], and [None] where [float]
    raises [ValueError] (more than one dot, or no digit). *)
Definition of_decimal (s : string) : option float :=
  let (ip, r) := Re.span PyStr.isdecimal s in
  match r with
  | EmptyString =>
      match ip with
      | EmptyString => None
      | _ => Some (of_ratio (digits_value 0 ip) 1)
      end
  | String c fs =>
      if Ascii.eqb c "."%char then
        let (fp, r') := Re.span PyStr.isdecimal fs in
        match r', (ip ++ fp) with
        | EmptyString, String _ _ =>
            Some (of_ratio (digits_value 0 (ip ++ fp))
                           (10 ^ Z.of_nat (String.length fp)))
        | _, _ => None
        end
      else None
  end.

End PyFloat.

(** ** Data of the watcher *)

(** The dictionary [log_data] built by [parse_log_line]. *)
Record LogData := {
  pool : string;
  release : string;
  upstream_status : option string;
  upstream_addr : option string;
  request_time : float;
  timestamp : string;
  raw_line : string
}.

(** The two alert dictionaries: [failover_event] of [check_failover]
    (['type'] is ['failover']) and [error_alert] of [check_error_rate]
    (['type'] is ['high_error_rate']). *)
Inductive Alert :=
| failover_event (from_pool to_pool : string) (time : string)
| error_alert (error_rate threshold : float) (size error_count : nat)
    (time : string).

(** [alert_data['type']] *)
Definition alert_type (a : Alert) : string :=
  match a with
  | failover_event _ _ _ => "failover"
  | error_alert _ _ _ _ _ => "high_error_rate"
  end.

(** The fields of [self]. [window_size] is a [nat]: [__init__] builds
    [deque(maxlen=self.window_size)], which refuses a negative length. The
    counter [_debug_count] and the constant [log_file] are never used by
    the methods below and are left out. *)
Record LogWatcher := {
  slack_webhook : option string;
  error_threshold : float;
  window_size : nat;
  cooldown_sec : Z;
  maintenance_mode : bool;
  _total_lines_processed : nat;
  _lines_with_pool : nat;
  _last_log_check : float;
  last_pool : option string;
  error_window : list bool;
  last_alert_time : gmap string float;
  current_pool : option string
}.

Definition set_total_lines_processed (v : nat) (w : LogWatcher) : LogWatcher :=
  {| slack_webhook := slack_webhook w; error_threshold := error_threshold w;
     window_size := window_size w; cooldown_sec := cooldown_sec w;
     maintenance_mode := maintenance_mode w;
     _total_lines_processed := v;
     _lines_with_pool := _lines_with_pool w;
     _last_log_check := _last_log_check w;
     last_pool := last_pool w; error_window := error_window w;
     last_alert_time := last_alert_time w; current_pool := current_pool w |}.

Definition set_lines_with_pool (v : nat) (w : LogWatcher) : LogWatcher :=
  {| slack_webhook := slack_webhook w; error_threshold := error_threshold w;
     window_size := window_size w; cooldown_sec := cooldown_sec w;
     maintenance_mode := maintenance_mode w;
     _total_lines_processed := _total_lines_processed w;
     _lines_with_pool := v;
     _last_log_check := _last_log_check w;
     last_pool := last_pool w; error_window := error_window w;
     last_alert_time := last_alert_time w; current_pool := current_pool w |}.

Definition set_last_log_check (v : float) (w : LogWatcher) : LogWatcher :=
  {| slack_webhook := slack_webhook w; error_threshold := error_threshold w;
     window_size := window_size w; cooldown_sec := cooldown_sec w;
     maintenance_mode := maintenance_mode w;
     _total_lines_processed := _total_lines_processed w;
     _lines_with_pool := _lines_with_pool w;
     _last_log_check := v;
     last_pool := last_pool w; error_window := error_window w;
     last_alert_time := last_alert_time w; current_pool := current_pool w |}.

Definition set_last_pool (v : option string) (w : LogWatcher) : LogWatcher :=
  {| slack_webhook := slack_webhook w; error_threshold := error_threshold w;
     window_size := window_size w; cooldown_sec := cooldown_sec w;
     maintenance_mode := maintenance_mode w;
     _total_lines_processed := _total_lines_processed w;
     _lines_with_pool := _lines_with_pool w;
     _last_log_check := _last_log_check w;
     last_pool := v; error_window := error_window w;
     last_alert_time := last_alert_time w; current_pool := current_pool w |}.

Definition set_error_window (v : list bool) (w : LogWatcher) : LogWatcher :=
  {| slack_webhook := slack_webhook w; error_threshold := error_threshold w;
     window_size := window_size w; cooldown_sec := cooldown_sec w;
     maintenance_mode := maintenance_mode w;
     _total_lines_processed := _total_lines_processed w;
     _lines_with_pool := _lines_with_pool w;
     _last_log_check := _last_log_check w;
     last_pool := last_pool w; error_window := v;
     last_alert_time := last_alert_time w; current_pool := current_pool w |}.

Definition set_last_alert_time (v : gmap string float) (w : LogWatcher)
  : LogWatcher :=
  {| slack_webhook := slack_webhook w; error_threshold := error_threshold w;
     window_size := window_size w; cooldown_sec := cooldown_sec w;
     maintenance_mode := maintenance_mode w;
     _total_lines_processed := _total_lines_processed w;
     _lines_with_pool := _lines_with_pool w;
     _last_log_check := _last_log_check w;
     last_pool := last_pool w; error_window := error_window w;
     last_alert_time := v; current_pool := current_pool w |}.

Definition set_current_pool (v : option string) (w : LogWatcher) : LogWatcher :=
  {| slack_webhook := slack_webhook w; error_threshold := error_threshold w;
     window_size := window_size w; cooldown_sec := cooldown_sec w;
     maintenance_mode := maintenance_mode w;
     _total_lines_processed := _total_lines_processed w;
     _lines_with_pool := _lines_with_pool w;
     _last_log_check := _last_log_check w;
     last_pool := last_pool w; error_window := error_window w;
     last_alert_time := last_alert_time w; current_pool := v |}.

(** [LogWatcher.__init__]: the five settings come from the environment,
    [start] is the reading of [time.time()]. *)
Definition init (webhook : option string) (threshold : float) (size : nat)
    (cooldown : Z) (maintenance : bool) (start : float) : LogWatcher :=
  {| slack_webhook := webhook; error_threshold := threshold;
     window_size := size; cooldown_sec := cooldown;
     maintenance_mode := maintenance;
     _total_lines_processed := 0; _lines_with_pool := 0;
     _last_log_check := start;
     last_pool := None; error_window := []; last_alert_time := ∅;
     current_pool := None |}.

(** The exceptions the modelled methods can raise. *)
Inductive exception := ZeroDivisionError | OverflowError.

(** A call either returns a value or raises; the state the call leaves
    behind is kept next to it in both cases. *)
Inductive result (A : Type) :=
| Returns (a : A)
| Raises (e : exception).
Arguments Returns {A} a.
Arguments Raises {A} e.

(** [x != s] for [x] a string or [None]. *)
Definition ne_opt (x : option string) (s : string) : bool :=
  match x with
  | Some p => negb (String.eqb p s)
  | None => true
  end.

(** ** parse_log_line *)

(** [ts] is the value of [datetime.now().isoformat()]. A [ValueError] of
    [float] is caught by the handler of the method, which returns [None];
    [_lines_with_pool] has been incremented by then. *)
Definition parse_log_line (line : string) (ts : string) (w : LogWatcher)
  : option LogData * LogWatcher :=
  let w := set_total_lines_processed (S (_total_lines_processed w)) w in
  if negb (PyStr.truthy (PyStr.strip line)) then (None, w)
  else
    let pool_match := Re.search Re.pool_pattern line in
    let release_match := Re.search Re.release_pattern line in
    let upstream_status_match := Re.search Re.upstream_status_pattern line in
    let upstream_addr_match := Re.search Re.upstream_addr_pattern line in
    let request_time_match := Re.search Re.request_time_pattern line in
    match pool_match with
    | None => (None, w)
    | Some pool_group =>
        let w := set_lines_with_pool (S (_lines_with_pool w)) w in
        let converted :=
          match request_time_match with
          | Some g => PyFloat.of_decimal g
          | None => Some 0%float
          end in
        match converted with
        | None => (None, w)
        | Some seconds =>
            (Some {| pool := pool_group;
                     release := default "unknown" release_match;
                     upstream_status := upstream_status_match;
                     upstream_addr := upstream_addr_match;
                     request_time := seconds;
                     timestamp := ts;
                     raw_line := PyStr.strip line |}, w)
        end
    end.

(** ** check_failover *)

Definition check_failover (log_data : LogData) (w : LogWatcher)
  : option Alert * LogWatcher :=
  if negb (PyStr.truthy (pool log_data)) || String.eqb (pool log_data) "unknown"
  then (None, w)
  else
    let keep :=
      let w :=
        if ne_opt (current_pool w) (pool log_data)
        then set_current_pool (Some (pool log_data)) w else w in
      (None, set_last_pool (Some (pool log_data)) w) in
    match last_pool w with
    | Some p =>
        if PyStr.truthy p && negb (String.eqb p (pool log_data))
        then (Some (failover_event p (pool log_data) (timestamp log_data)),
              set_last_pool (Some (pool log_data)) w)
        else keep
    | None => keep
    end.

(** ** check_error_rate *)

(** [d.append(x)] on a [deque(maxlen=maxlen)]: the item goes to the right
    end and, when the deque is over its length then, the leftmost item is
    dropped. *)
Definition deque_append (maxlen : nat) (d : list bool) (x : bool) : list bool :=
  let d' := (d ++ [x])%list in
  if (maxlen <? length d')%nat then tail d' else d'.

(** [sum(d)] of a deque of booleans ([True] counts 1, [False] 0). *)
Fixpoint sum (d : list bool) : nat :=
  match d with
  | [] => 0%nat
  | b :: d' => ((if b then 1 else 0) + sum d')%nat
  end.

Definition check_error_rate (log_data : LogData) (w : LogWatcher)
  : result (option Alert) * LogWatcher :=
  match upstream_status log_data with
  | None => (Returns None, w)
  | Some status =>
      if negb (PyStr.truthy status) then (Returns None, w)
      else
        let is_error := PyStr.startswith status "5"%char in
        let w := set_error_window
                   (deque_append (window_size w) (error_window w) is_error) w in
        let current_window_size := length (error_window w) in
        if (current_window_size <? window_size w)%nat then (Returns None, w)
        else
          let error_count := sum (error_window w) in
          match PyFloat.truediv error_count current_window_size with
          | None => (Raises ZeroDivisionError, w)
          | Some ratio =>
              let error_rate := PrimFloat.mul ratio 100%float in
              if PrimFloat.ltb (error_threshold w) error_rate
              then (Returns (Some (error_alert (PyFloat.round2 error_rate)
                                     (error_threshold w) current_window_size
                                     error_count (timestamp log_data))), w)
              else (Returns None, w)
          end
  end.

(** ** can_send_alert *)

(** [now] is the reading of [time.time()]. On the refusal path the
    method computes [remaining = self.cooldown_sec - time_since_last] for
    its message: an integer minus a float, which raises [OverflowError]
    when [cooldown_sec] is beyond the floats. *)
Definition can_send_alert (kind : string) (now : float) (w : LogWatcher)
  : result bool * LogWatcher :=
  let last_time := default 0%float (last_alert_time w !! kind) in
  let time_since_last := PrimFloat.sub now last_time in
  if PyFloat.lt_int time_since_last (cooldown_sec w) then
    match PyFloat.int_sub (cooldown_sec w) time_since_last with
    | Some remaining => (Returns false, w)
    | None => (Raises OverflowError, w)
    end
  else (Returns true,
        set_last_alert_time (<[kind := now]> (last_alert_time w)) w).

(** ** send_slack_alert *)

(** The dictionary [message] handed to [requests.post]: which of the two
    layouts it is and the values its f-strings interpolate
    ([total_requests] is [self._total_lines_processed]). *)
Inductive SlackMessage :=
| failover_message (from_pool to_pool time : string) (total_requests : nat)
| error_rate_message (error_rate threshold : float) (error_count size : nat)
    (time : string).

Definition build_message (alert_data : Alert) (w : LogWatcher) : SlackMessage :=
  match alert_data with
  | failover_event from_pool to_pool time =>
      failover_message from_pool to_pool time (_total_lines_processed w)
  | error_alert error_rate threshold size error_count time =>
      error_rate_message error_rate threshold error_count size time
  end.

(** What [requests.post] does when it is called: it returns a response
    with a status code, or it raises. *)
Inductive PostOutcome :=
| Response (status_code : Z)
| PostRaises.

Section Requests.

(** The module constant set by the guarded [import requests]. *)
Variable REQUESTS_AVAILABLE : bool.

(** [now] is the reading of [time.time()] inside [can_send_alert] and
    [reply] what [requests.post] does, should the method get that far. The
    third component lists the messages posted by the call. The call of
    [can_send_alert] stands before the [try] of the method, so what it
    raises leaves the method; what the post raises is caught. *)
Definition send_slack_alert (alert_data : Alert) (now : float)
    (reply : PostOutcome) (w : LogWatcher)
  : result bool * LogWatcher * list SlackMessage :=
  if negb (PyStr.truthy_opt (slack_webhook w)) then (Returns false, w, [])
  else if maintenance_mode w then (Returns false, w, [])
  else if negb REQUESTS_AVAILABLE then (Returns false, w, [])
  else
    match can_send_alert (alert_type alert_data) now w with
    | (Raises e, w) => (Raises e, w, [])
    | (Returns approved, w) =>
        if negb approved then (Returns false, w, [])
        else
          let message := build_message alert_data w in
          match reply with
          | Response status_code => (Returns (status_code =? 200), w, [message])
          | PostRaises => (Returns false, w, [message])
          end
    end.

(** The statement [if alert: self.send_slack_alert(alert)] of the loop,
    for the alert, or [False], a detector returned; the value of the call
    is not used. *)
Definition dispatch (alert : option Alert) (now : float)
    (reply : PostOutcome) (w : LogWatcher)
  : result unit * LogWatcher * list SlackMessage :=
  match alert with
  | Some a =>
      match send_slack_alert a now reply w with
      | (Raises e, w, posted) => (Raises e, w, posted)
      | (Returns _, w, posted) => (Returns tt, w, posted)
      end
  | None => (Returns tt, w, [])
  end.

(** ** The loop of watch_logs *)

(** What one pass of the loop reads from outside, in the order of the
    reads: the clock in [parse_log_line], the clock and the webhook for the
    failover alert, the same for the error-rate alert, and the clock of the
    status report. A reading is used only when the pass gets to its read. *)
Record Readings := {
  parse_clock : string;
  failover_clock : float;
  failover_reply : PostOutcome;
  error_clock : float;
  error_reply : PostOutcome;
  status_clock : float
}.

(** The status report at the end of a pass. *)
Definition status_report (current_time : float) (w : LogWatcher) : LogWatcher :=
  if PrimFloat.ltb 30%float (PrimFloat.sub current_time (_last_log_check w))
  then set_last_log_check current_time w else w.

(** One pass of [while True] for the value [line] of [file.readline()]
    (the empty string when the file has no new line). What a method raises
    ends the pass there. *)
Definition watch_logs_pass (line : string) (env : Readings) (w : LogWatcher)
  : result unit * LogWatcher * list SlackMessage :=
  if negb (PyStr.truthy line) then (Returns tt, w, [])
  else
    let (parsed, w) := parse_log_line line (parse_clock env) w in
    match parsed with
    | None => (Returns tt, w, [])
    | Some log_data =>
        let (failover_alert, w) := check_failover log_data w in
        match dispatch failover_alert (failover_clock env)
                (failover_reply env) w with
        | (Raises e, w, posted1) => (Raises e, w, posted1)
        | (Returns _, w, posted1) =>
            if PyStr.truthy_opt (upstream_status log_data) then
              match check_error_rate log_data w with
              | (Raises e, w) => (Raises e, w, posted1)
              | (Returns raised, w) =>
                  match dispatch raised (error_clock env)
                          (error_reply env) w with
                  | (Raises e, w, posted2) =>
                      (Raises e, w, (posted1 ++ posted2)%list)
                  | (Returns _, w, posted2) =>
                      (Returns tt, status_report (status_clock env) w,
                       (posted1 ++ posted2)%list)
                  end
              end
            else (Returns tt, status_report (status_clock env) w, posted1)
        end
    end.

(** The loop over the successive values of [file.readline()], until one
    pass raises (the handler of [watch_logs] raises it again). *)
Fixpoint watch_logs_loop (input : list (string * Readings)) (w : LogWatcher)
  : result unit * LogWatcher * list SlackMessage :=
  match input with
  | [] => (Returns tt, w, [])
  | (line, env) :: input' =>
      match watch_logs_pass line env w with
      | (Raises e, w, posted) => (Raises e, w, posted)
      | (Returns _, w, posted) =>
          let '(r, w, posted') := watch_logs_loop input' w in
          (r, w, (posted ++ posted')%list)
      end
  end.

End Requests.

(** ** Feeding a detector a sequence of records *)

(** [check_failover] on each record in turn; the alerts raised, in order. *)
Fixpoint feed_failover (records : list LogData) (w : LogWatcher)
  : list Alert * LogWatcher :=
  match records with
  | [] => ([], w)
  | r :: records' =>
      let (a, w) := check_failover r w in
      let (alerts, w) := feed_failover records' w in
      (match a with Some a => a :: alerts | None => alerts end, w)
  end.

(** [check_error_rate] on each record in turn; what each call did, in
    order. The calls go on after one that raised, on the state it left. *)
Fixpoint feed_error_rate (records : list LogData) (w : LogWatcher)
  : list (result (option Alert)) * LogWatcher :=
  match records with
  | [] => ([], w)
  | r :: records' =>
      let (a, w) := check_error_rate r w in
      let (outcomes, w) := feed_error_rate records' w in
      (a :: outcomes, w)
  end.

(** ** Vocabulary of the properties *)

(** The guard at the top of [check_failover]. *)
Definition ignored_pool (p : string) : bool :=
  negb (PyStr.truthy p) || String.eqb p "unknown".

(** The stored pool is never the empty string: [__init__] stores [None]
    and [check_failover] stores only pools that passed its guard. *)
Definition last_pool_ok (w : LogWatcher) : Prop := last_pool w <> Some "".

(** The records of a sequence whose status enters the window: those
    [check_error_rate] does not turn away at its first test. *)
Fixpoint entering (records : list LogData) : nat :=
  match records with
  | [] => 0%nat
  | r :: records' =>
      ((if PyStr.truthy_opt (upstream_status r) then 1 else 0)
       + entering records')%nat
  end.

(** Every character of [s] is whitespace. *)
Fixpoint all_space (s : string) : bool :=
  match s with
  | String c s' => PyStr.isspace c && all_space s'
  | EmptyString => true
  end.

(** Concrete records and watchers the properties are tried on. *)
Module Sample.

Definition quoted (s : string) : string :=
  String PyStr.dquote (s ++ String PyStr.dquote EmptyString).

Definition record (p : string) (status : option string) (ts : string)
  : LogData :=
  {| pool := p; release := "unknown"; upstream_status := status;
     upstream_addr := None; request_time := 0%float; timestamp := ts;
     raw_line := "" |}.

(** A watcher as [__init__] leaves it, with a window of 5 requests, a
    threshold of 20 percent and a cooldown of 300 seconds. *)
Definition watcher : LogWatcher :=
  init (Some "https://hooks.slack.com/services/T0/B0/X0") 20%float 5 300
    false 1762214400%float.

(** The same watcher in maintenance mode. *)
Definition maintenance_watcher : LogWatcher :=
  init (Some "https://hooks.slack.com/services/T0/B0/X0") 20%float 5 300
    true 1762214400%float.

(** The watcher after records served by blue, with one error among the
    last four statuses. *)
Definition busy_watcher : LogWatcher :=
  set_error_window [false; false; false; true]
    (set_last_pool (Some "blue") watcher).

(** The watcher after records served by blue, with one error among the
    last four statuses, when the cooldown was set to 10^400 seconds. *)
Definition overflow_watcher : LogWatcher :=
  set_error_window [false; false; false; true]
    (set_last_pool (Some "blue")
       (init (Some "https://hooks.slack.com/services/T0/B0/X0") 20%float 5
          (10 ^ 400) false 1762214400%float)).

Definition newline : string := String (ascii_of_nat 10) EmptyString.

(** A line served by blue that reached no upstream. *)
Definition line_without_status : string :=
  "10.0.0.9 GET / pool=" ++ quoted "blue" ++ " release=" ++ quoted "v1"
  ++ " request_time=0.5" ++ newline.

(** A line served by green with an upstream error. *)
Definition line_green_502 : string :=
  "10.0.0.9 GET / pool=" ++ quoted "green" ++ " release=" ++ quoted "v2"
  ++ " upstream_status=502 upstream_addr=10.0.0.2:80 request_time=0.25"
  ++ newline.

(** A line served by blue whose upstream status is a dash. *)
Definition line_dash : string :=
  "10.0.0.9 GET / pool=" ++ quoted "blue" ++ " release=" ++ quoted "v1"
  ++ " upstream_status=- upstream_addr=- request_time=0.000" ++ newline.

(** A line served by blue whose request time has two dots. *)
Definition line_two_dots : string :=
  "pool=" ++ quoted "blue" ++ " upstream_status=200 request_time=1.2.3"
  ++ newline.




(** The record of [line_green_502] read at [ts]. *)
Definition record_green_502 (ts : string) : LogData :=
  {| pool := "green"; release := "v2"; upstream_status := Some "502";
     upstream_addr := Some "10.0.0.2:80"; request_time := 0.25%float;
     timestamp := ts; raw_line := PyStr.strip line_green_502 |}.

(** The same line with a request time the pattern does not match. *)
Definition line_no_digits : string :=
  "pool=" ++ quoted "blue" ++ " upstream_status=200 request_time=abc"
  ++ newline.

Definition readings : Readings :=
  {| parse_clock := "2025-11-04T00:00:01";
     failover_clock := 1762214401%float;
     failover_reply := Response 200;
     error_clock := 1762214402%float;
     error_reply := Response 200;
     status_clock := 1762214403%float |}.

End Sample.

(** The time of the last approved alert of [kind] as [can_send_alert]
    reads it, [self.last_alert_time.get(alert_type, 0)]: 0 for a kind that
    was never approved. *)
Definition last_time (kind : string) (w : LogWatcher) : float :=
  default 0%float (last_alert_time w !! kind).

(** The test of [can_send_alert]: less than [cooldown_sec] seconds lie
    between [last_time] and [now]. *)
Definition in_cooldown (kind : string) (now : float) (w : LogWatcher) : bool :=
  PyFloat.lt_int (PrimFloat.sub now (last_time kind w)) (cooldown_sec w).

(** [cooldown_sec] converts to a float, so the message of
    [can_send_alert] can be computed: the integer is below 2^1024 - 2^970
    in absolute value. *)
Definition gate_safe (w : LogWatcher) : Prop :=
  PyFloat.of_int (cooldown_sec w) <> None.

(** The settings read from the environment by [__init__]. *)
Definition settings (w : LogWatcher)
  : option string * float * nat * Z * bool :=
  (slack_webhook w, error_threshold w, window_size w, cooldown_sec w,
   maintenance_mode w).

(** What the two detectors keep between records. *)
Definition detector_state (w : LogWatcher)
  : option string * option string * list bool :=
  (last_pool w, current_pool w, error_window w).

(** The readings [env] with other replies of the webhook. *)
Definition with_replies (reply1 reply2 : PostOutcome) (env : Readings)
  : Readings :=
  {| parse_clock := parse_clock env;
     failover_clock := failover_clock env;
     failover_reply := reply1;
     error_clock := error_clock env;
     error_reply := reply2;
     status_clock := status_clock env |}.

(** [s] starts with a character of the class [cls]. *)
Definition starts_in (cls : ascii -> bool) (s : string) : bool :=
  match s with
  | String c _ => cls c
  | EmptyString => false
  end.

(** The input of the loop with other replies of the webhook throughout. *)
Definition input_with_replies (reply1 reply2 : PostOutcome)
    (input : list (string * Readings)) : list (string * Readings) :=
  map (fun item => (fst item, with_replies reply1 reply2 (snd item))) input.

(** ** Vocabulary of the further properties *)

(** The text [sub] occurs somewhere in [s]. *)
Fixpoint occurs (sub s : string) : bool :=
  match Re.match_literal sub s with
  | Some _ => true
  | None =>
      match s with
      | String _ s' => occurs sub s'
      | EmptyString => false
      end
  end.

(** Every character of [s] is in the class [cls]. *)
Fixpoint all_in (cls : ascii -> bool) (s : string) : bool :=
  match s with
  | String c s' => cls c && all_in cls s'
  | EmptyString => true
  end.

(** The number of occurrences of the character [c] in [s]. *)
Fixpoint count_char (c : ascii) (s : string) : nat :=
  match s with
  | String a s' => ((if Ascii.eqb a c then 1 else 0) + count_char c s')%nat
  | EmptyString => 0%nat
  end.

(** The window is within its length: [deque(maxlen=window_size)] keeps
    it so. *)
Definition window_ok (w : LogWatcher) : Prop :=
  (length (error_window w) <= window_size w)%nat.

(** The stored pool, when there is one, passed the guard of
    [check_failover]: it is neither empty nor ['unknown']. *)
Definition last_pool_known (w : LogWatcher) : Prop :=
  forall p : string, last_pool w = Some p -> ignored_pool p = false.

(** The samples the records of a sequence put in the window, in order. *)
Fixpoint samples (records : list LogData) : list bool :=
  match records with
  | [] => []
  | r :: records' =>
      match upstream_status r with
      | Some s =>
          if PyStr.truthy s
          then PyStr.startswith s "5"%char :: samples records'
          else samples records'
      | None => samples records'
      end
  end.

(** The last [n] items of [l], all of [l] when it has fewer. *)
Definition lastn {A : Type} (n : nat) (l : list A) : list A :=
  skipn (length l - n) l.

(** The records of a sequence whose pool passes the guard of
    [check_failover]. *)
Fixpoint accepted (records : list LogData) : list LogData :=
  match records with
  | [] => []
  | r :: records' =>
      if ignored_pool (pool r) then accepted records'
      else r :: accepted records'
  end.

Definition is_failover_message (m : SlackMessage) : bool :=
  match m with
  | failover_message _ _ _ _ => true
  | error_rate_message _ _ _ _ _ => false
  end.

(** The three tests [send_slack_alert] makes before it asks
    [can_send_alert]. *)
Definition can_post (REQUESTS_AVAILABLE : bool) (w : LogWatcher) : bool :=
  PyStr.truthy_opt (slack_webhook w) && negb (maintenance_mode w)
  && REQUESTS_AVAILABLE.

(** The two alert kinds are the only keys of [last_alert_time]. *)
Definition alert_kinds_only (w : LogWatcher) : Prop :=
  forall kind : string,
    is_Some (last_alert_time w !! kind) ->
    kind = "failover" \/ kind = "high_error_rate".

(** What detection rests on: the stored pool, the window, and the two
    settings of the error-rate detector. *)
Definition detection (w : LogWatcher)
  : option string * list bool * float * nat :=
  (last_pool w, error_window w, error_threshold w, window_size w).

(** The lines of an input of the loop, each with the reading of the clock
    the parser makes for it. *)
Definition lines_read (input : list (string * Readings))
  : list (string * string) :=
  map (fun item => (fst item, parse_clock (snd item))) input.

(** The number of non-empty lines of an input of the loop. *)
Fixpoint non_empty_lines (input : list (string * Readings)) : nat :=
  match input with
  | [] => 0%nat
  | (line, _) :: input' =>
      ((if PyStr.truthy line then 1 else 0) + non_empty_lines input')%nat
  end.

(** Case analysis on every [match] of the goal, for the goals that hold
    in each branch of a method. *)
Ltac split_matches :=
  repeat match goal with
         | |- context [match ?x with _ => _ end] => destruct x
         end.

(** * Properties *)

(** ** Strings *)

Lemma truthy_true (s : string) : PyStr.truthy s = true <-> s <> "".
Proof. destruct s; simpl; split; intros; congruence. Qed.

Lemma truthy_false (s : string) : PyStr.truthy s = false <-> s = "".
Proof. destruct s; simpl; split; intros; congruence. Qed.

(** ** check_failover *)

Lemma ignored_pool_true (p : string) :
  ignored_pool p = true <-> p = "" \/ p = "unknown".
Proof.
  unfold ignored_pool. rewrite orb_true_iff, negb_true_iff, truthy_false.
  rewrite String.eqb_eq. tauto.
Qed.

Lemma ignored_pool_false (p : string) :
  ignored_pool p = false <-> p <> "" /\ p <> "unknown".
Proof.
  rewrite <- not_true_iff_false, ignored_pool_true. tauto.
Qed.

Lemma check_failover_ignored (ld : LogData) (w : LogWatcher) :
  pool ld = "" \/ pool ld = "unknown" -> check_failover ld w = (None, w).
Proof.
  intros H. apply ignored_pool_true in H. unfold check_failover.
  fold (ignored_pool (pool ld)). now rewrite H.
Qed.

Lemma check_failover_raise (ld : LogData) (w : LogWatcher) (p : string) :
  pool ld <> "" -> pool ld <> "unknown" ->
  last_pool w = Some p -> p <> "" -> p <> pool ld ->
  check_failover ld w =
    (Some (failover_event p (pool ld) (timestamp ld)),
     set_last_pool (Some (pool ld)) w).
Proof.
  intros H1 H2 Hl Hp Hne. unfold check_failover.
  fold (ignored_pool (pool ld)).
  rewrite (proj2 (ignored_pool_false _) (conj H1 H2)), Hl.
  rewrite (proj2 (truthy_true p) Hp), (proj2 (String.eqb_neq p _) Hne).
  reflexivity.
Qed.

Lemma check_failover_keep (ld : LogData) (w : LogWatcher) :
  pool ld <> "" -> pool ld <> "unknown" ->
  last_pool w = None \/ last_pool w = Some "" \/ last_pool w = Some (pool ld) ->
  fst (check_failover ld w) = None /\
  last_pool (snd (check_failover ld w)) = Some (pool ld).
Proof.
  intros H1 H2 Hl. unfold check_failover.
  fold (ignored_pool (pool ld)).
  rewrite (proj2 (ignored_pool_false _) (conj H1 H2)).
  destruct Hl as [-> | [-> | ->]]; cbn [PyStr.truthy andb].
  - split; reflexivity.
  - split; reflexivity.
  - rewrite (proj2 (truthy_true _) H1), String.eqb_refl. split; reflexivity.
Qed.

Lemma check_failover_last_pool_ok (ld : LogData) (w : LogWatcher) :
  last_pool_ok w -> last_pool_ok (snd (check_failover ld w)).
Proof.
  unfold last_pool_ok. intros Hw.
  destruct (ignored_pool (pool ld)) eqn:Hg.
  - apply ignored_pool_true in Hg. now rewrite check_failover_ignored.
  - apply ignored_pool_false in Hg as [H1 H2].
    assert (last_pool (snd (check_failover ld w)) = Some (pool ld)) as ->;
      [| congruence].
    destruct (last_pool w) as [p|] eqn:Hl.
    + destruct (String.eqb_spec p (pool ld)) as [->|Hne].
      * apply check_failover_keep; auto.
      * rewrite (check_failover_raise ld w p); auto. congruence.
    + apply check_failover_keep; auto.
Qed.

(** [check_failover] reads and writes [last_pool] and [current_pool]
    only, so what it raises depends on [last_pool] alone. *)
Lemma check_failover_cases (ld : LogData) (w : LogWatcher) :
  last_pool_ok w ->
  (ignored_pool (pool ld) = true /\ check_failover ld w = (None, w)) \/
  (ignored_pool (pool ld) = false /\
   last_pool (snd (check_failover ld w)) = Some (pool ld) /\
   ((exists p, last_pool w = Some p /\ p <> pool ld /\
       fst (check_failover ld w)
         = Some (failover_event p (pool ld) (timestamp ld))) \/
    ((last_pool w = None \/ last_pool w = Some (pool ld)) /\
       fst (check_failover ld w) = None))).
Proof.
  intros Hw. destruct (ignored_pool (pool ld)) eqn:Hg.
  - left. split; [reflexivity|].
    apply check_failover_ignored, ignored_pool_true, Hg.
  - right. split; [reflexivity|].
    apply ignored_pool_false in Hg as [H1 H2].
    destruct (last_pool w) as [p|] eqn:Hl.
    + destruct (String.eqb_spec p (pool ld)) as [->|Hne].
      * destruct (check_failover_keep ld w H1 H2) as [Hf Hs]; auto.
      * assert (p <> "") as Hp by (intros ->; now apply Hw).
        rewrite (check_failover_raise ld w p) by auto.
        split; [reflexivity|]. left. exists p. auto.
    + destruct (check_failover_keep ld w H1 H2) as [Hf Hs]; auto.
Qed.

(** C1. [check_failover] raises a failover alert from [p] to the observed
    pool exactly when the stored last pool is [p], [p] is not the observed
    pool, and the observed pool is neither empty nor ['unknown']; an empty or
    ['unknown'] pool raises nothing and leaves the watcher as it was; any
    other pool becomes the stored last pool. Started with no stored pool,
    the pools blue, blue, green, green, blue raise blue->green and then
    green->blue, and the pools blue, unknown, green raise blue->green
    only. *)
Theorem check_failover_correct :
  (forall (ld : LogData) (w : LogWatcher),
      last_pool_ok w ->
      (forall a : Alert,
          fst (check_failover ld w) = Some a <->
          exists p : string,
            a = failover_event p (pool ld) (timestamp ld) /\
            last_pool w = Some p /\ p <> pool ld /\
            pool ld <> "" /\ pool ld <> "unknown") /\
      (pool ld = "" \/ pool ld = "unknown" ->
       check_failover ld w = (None, w)) /\
      (pool ld <> "" -> pool ld <> "unknown" ->
       last_pool (snd (check_failover ld w)) = Some (pool ld))) /\
  (forall (w : LogWatcher) (r1 r2 r3 r4 r5 : LogData),
      last_pool w = None ->
      map pool [r1; r2; r3; r4; r5]
        = ["blue"; "blue"; "green"; "green"; "blue"] ->
      fst (feed_failover [r1; r2; r3; r4; r5] w)
        = [failover_event "blue" "green" (timestamp r3);
           failover_event "green" "blue" (timestamp r5)]) /\
  (forall (w : LogWatcher) (r1 r2 r3 : LogData),
      last_pool w = None ->
      map pool [r1; r2; r3] = ["blue"; "unknown"; "green"] ->
      fst (feed_failover [r1; r2; r3] w)
        = [failover_event "blue" "green" (timestamp r3)]).
Proof.
  split; [|split].
  - intros ld w Hw. split; [|split].
    + intros a. destruct (check_failover_cases ld w Hw)
        as [[Hg He] | [Hg [_ [[p [Hl [Hne He]]] | [Hl He]]]]].
      * rewrite He. cbn. apply ignored_pool_true in Hg.
        split; [discriminate|]. intros [p [_ [_ [_ [H1 H2]]]]].
        destruct Hg; contradiction.
      * rewrite He. apply ignored_pool_false in Hg as [H1 H2]. split.
        -- intros [= <-]. exists p. auto.
        -- intros [q [-> [Hq _]]]. congruence.
      * rewrite He. split; [discriminate|].
        intros [q [_ [Hq [Hne _]]]].
        destruct Hl as [Hl | Hl]; congruence.
    + apply check_failover_ignored.
    + intros H1 H2. destruct (check_failover_cases ld w Hw)
        as [[Hg _] | [_ [Hs _]]]; [|exact Hs].
      apply ignored_pool_true in Hg. destruct Hg; contradiction.
  - intros w r1 r2 r3 r4 r5 Hl [= P1 P2 P3 P4 P5].
    cbn [feed_failover]. unfold check_failover at 1. rewrite P1, Hl. cbn.
    unfold check_failover at 1. rewrite P2. cbn.
    unfold check_failover at 1. rewrite P3. cbn.
    unfold check_failover at 1. rewrite P4. cbn.
    unfold check_failover at 1. rewrite P5. cbn.
    reflexivity.
  - intros w r1 r2 r3 Hl [= P1 P2 P3].
    cbn [feed_failover]. unfold check_failover at 1. rewrite P1, Hl. cbn.
    unfold check_failover at 1. rewrite P2. cbn.
    unfold check_failover at 1. rewrite P3. cbn.
    reflexivity.
Qed.

Lemma check_failover_correct_witness :
  (fst (check_failover (Sample.record "green" None "t2")
          (set_last_pool (Some "blue") Sample.watcher))
     = Some (failover_event "blue" "green" "t2") <->
   exists p : string,
     failover_event "blue" "green" "t2" = failover_event p "green" "t2" /\
     Some "blue" = Some p /\ p <> "green" /\
     "green" <> "" /\ "green" <> "unknown") /\
  fst (feed_failover
         [Sample.record "blue" None "t1"; Sample.record "blue" None "t2";
          Sample.record "green" None "t3"; Sample.record "green" None "t4";
          Sample.record "blue" None "t5"] Sample.watcher)
    = [failover_event "blue" "green" "t3";
       failover_event "green" "blue" "t5"] /\
  fst (feed_failover
         [Sample.record "blue" None "t1"; Sample.record "unknown" None "t2";
          Sample.record "green" None "t3"] Sample.watcher)
    = [failover_event "blue" "green" "t3"].
Proof.
  destruct check_failover_correct as [H1 [H2 H3]].
  split; [|split].
  - apply (H1 (Sample.record "green" None "t2")
              (set_last_pool (Some "blue") Sample.watcher)).
    unfold last_pool_ok. simpl. discriminate.
  - apply (H2 Sample.watcher); reflexivity.
  - apply (H3 Sample.watcher); reflexivity.
Defined.

(** ** check_error_rate *)

Lemma deque_append_length (maxlen : nat) (d : list bool) (x : bool) :
  (length d < maxlen)%nat ->
  deque_append maxlen d x = (d ++ [x])%list.
Proof.
  intros H. unfold deque_append.
  destruct (Nat.ltb_spec maxlen (length (d ++ [x]))) as [Hlt|]; [|reflexivity].
  rewrite length_app in Hlt. simpl in Hlt. lia.
Qed.

(** A record whose status is absent, or the empty string, is turned away
    before the window is touched. *)
Lemma check_error_rate_absent (ld : LogData) (w : LogWatcher) :
  PyStr.truthy_opt (upstream_status ld) = false ->
  check_error_rate ld w = (Returns None, w).
Proof.
  unfold check_error_rate. destruct (upstream_status ld) as [s|]; simpl.
  - now intros ->.
  - reflexivity.
Qed.

(** A status that enters a window with room left after it raises nothing. *)
Lemma check_error_rate_partial (ld : LogData) (w : LogWatcher) (s : string) :
  upstream_status ld = Some s -> s <> "" ->
  (S (length (error_window w)) < window_size w)%nat ->
  check_error_rate ld w =
    (Returns None,
     set_error_window
       (error_window w ++ [PyStr.startswith s "5"%char])%list w).
Proof.
  intros Hs Hne Hlen. unfold check_error_rate. rewrite Hs.
  apply truthy_true in Hne. rewrite Hne. cbn [negb].
  rewrite deque_append_length by lia.
  cbn [error_window set_error_window window_size].
  rewrite length_app. cbn [length].
  destruct (Nat.ltb_spec (length (error_window w) + 1) (window_size w));
    [reflexivity | lia].
Qed.

Lemma check_error_rate_short_window (ld : LogData) (w : LogWatcher) :
  (length (error_window (snd (check_error_rate ld w))) < window_size w)%nat ->
  fst (check_error_rate ld w) = Returns None.
Proof.
  unfold check_error_rate. destruct (upstream_status ld) as [s|]; [|reflexivity].
  destruct (PyStr.truthy s); [|reflexivity]. cbn [negb].
  cbn [error_window set_error_window window_size].
  destruct (Nat.ltb_spec
              (length (deque_append (window_size w) (error_window w)
                         (PyStr.startswith s "5"%char)))
              (window_size w)) as [Hlt|Hge]; [reflexivity|].
  intros H. exfalso.
  destruct (PyFloat.truediv _ _); [destruct (PrimFloat.ltb _ _)|];
    cbn [snd error_window set_error_window] in H; lia.
Qed.

Lemma feed_error_rate_quiet (records : list LogData) (w : LogWatcher) :
  (length (error_window w) + entering records < window_size w)%nat ->
  Forall (fun outcome => outcome = Returns None)
         (fst (feed_error_rate records w)) /\
  length (fst (feed_error_rate records w)) = length records.
Proof.
  revert w. induction records as [|r records IH]; intros w Hlen.
  - split; [constructor | reflexivity].
  - cbn [feed_error_rate entering] in *.
    destruct (PyStr.truthy_opt (upstream_status r)) eqn:Ht.
    + destruct (upstream_status r) as [s|] eqn:Hs; [|discriminate].
      simpl in Ht. apply truthy_true in Ht.
      rewrite (check_error_rate_partial r w s) by (auto; lia).
      specialize (IH (set_error_window
                        (error_window w ++ [PyStr.startswith s "5"%char])%list w)).
      cbn [error_window set_error_window window_size] in IH.
      rewrite length_app in IH. cbn [length] in IH.
      destruct IH as [IH1 IH2]; [lia|].
      destruct (feed_error_rate records _) as [outcomes w'].
      cbn [fst] in *. split; [constructor; auto | cbn; lia].
    + rewrite check_error_rate_absent by exact Ht.
      destruct (IH w) as [IH1 IH2]; [lia|].
      destruct (feed_error_rate records w) as [outcomes w'].
      cbn [fst] in *. split; [constructor; auto | cbn; lia].
Qed.

(** C6. A call of [check_error_rate] that leaves fewer than [window_size]
    samples in the window returns no alert; and while fewer than
    [window_size] statuses have entered the window, counting the ones it
    held at the start, every call returns, and returns no alert, whatever
    the statuses are. *)
Theorem check_error_rate_quiet_until_full :
  forall (records : list LogData) (w : LogWatcher),
    (forall ld : LogData,
        (length (error_window (snd (check_error_rate ld w)))
         < window_size w)%nat ->
        fst (check_error_rate ld w) = Returns None) /\
    ((length (error_window w) + entering records < window_size w)%nat ->
     Forall (fun outcome => outcome = Returns None)
            (fst (feed_error_rate records w)) /\
     length (fst (feed_error_rate records w)) = length records).
Proof.
  intros records w. split.
  - intros ld. apply check_error_rate_short_window.
  - apply feed_error_rate_quiet.
Qed.

Lemma check_error_rate_quiet_until_full_witness :
  Forall (fun outcome => outcome = Returns None)
    (fst (feed_error_rate
            [Sample.record "blue" (Some "500") "t1";
             Sample.record "blue" (Some "502") "t2";
             Sample.record "blue" None "t3";
             Sample.record "blue" (Some "503") "t4";
             Sample.record "blue" (Some "500") "t5"] Sample.watcher)) /\
  length (fst (feed_error_rate
            [Sample.record "blue" (Some "500") "t1";
             Sample.record "blue" (Some "502") "t2";
             Sample.record "blue" None "t3";
             Sample.record "blue" (Some "503") "t4";
             Sample.record "blue" (Some "500") "t5"] Sample.watcher)) = 5%nat.
Proof.
  apply (check_error_rate_quiet_until_full
           [Sample.record "blue" (Some "500") "t1";
            Sample.record "blue" (Some "502") "t2";
            Sample.record "blue" None "t3";
            Sample.record "blue" (Some "503") "t4";
            Sample.record "blue" (Some "500") "t5"] Sample.watcher).
  vm_compute. lia.
Defined.

(** C2. With a window of 5 and a threshold of 20 percent, starting from an
    empty window: five statuses 200 raise nothing; a 500 after them makes
    the window 200, 200, 200, 200, 500 and raises nothing, the rate of 20
    not being above the threshold; a second 500 makes the window 200, 200,
    200, 500, 500 and raises one alert, with an error count of 2, a window
    size of 5 and a rate of 40. *)
Theorem check_error_rate_window_of_five :
  forall (w : LogWatcher) (r1 r2 r3 r4 r5 r6 r7 : LogData),
    window_size w = 5%nat ->
    error_threshold w = 20%float ->
    error_window w = [] ->
    map upstream_status [r1; r2; r3; r4; r5; r6; r7]
      = [Some "200"; Some "200"; Some "200"; Some "200"; Some "200";
         Some "500"; Some "500"] ->
    fst (feed_error_rate [r1; r2; r3; r4; r5] w)
      = [Returns None; Returns None; Returns None; Returns None;
         Returns None] /\
    fst (feed_error_rate [r1; r2; r3; r4; r5; r6] w)
      = [Returns None; Returns None; Returns None; Returns None;
         Returns None; Returns None] /\
    error_window (snd (feed_error_rate [r1; r2; r3; r4; r5; r6] w))
      = [false; false; false; false; true] /\
    fst (feed_error_rate [r1; r2; r3; r4; r5; r6; r7] w)
      = [Returns None; Returns None; Returns None; Returns None;
         Returns None; Returns None;
         Returns (Some (error_alert 40%float 20%float 5 2 (timestamp r7)))] /\
    error_window (snd (feed_error_rate [r1; r2; r3; r4; r5; r6; r7] w))
      = [false; false; false; true; true].
Proof.
  intros w r1 r2 r3 r4 r5 r6 r7 Hsize Hthr Hwin [= S1 S2 S3 S4 S5 S6 S7].
  destruct w, r1, r2, r3, r4, r5, r6, r7. cbn in *. subst.
  repeat split; vm_compute; reflexivity.
Qed.

Lemma check_error_rate_window_of_five_witness :
  fst (feed_error_rate
         [Sample.record "blue" (Some "200") "t1";
          Sample.record "blue" (Some "200") "t2";
          Sample.record "blue" (Some "200") "t3";
          Sample.record "blue" (Some "200") "t4";
          Sample.record "blue" (Some "200") "t5";
          Sample.record "blue" (Some "500") "t6";
          Sample.record "blue" (Some "500") "t7"] Sample.watcher)
    = [Returns None; Returns None; Returns None; Returns None;
       Returns None; Returns None;
       Returns (Some (error_alert 40%float 20%float 5 2 "t7"))].
Proof.
  apply (check_error_rate_window_of_five Sample.watcher
           (Sample.record "blue" (Some "200") "t1")
           (Sample.record "blue" (Some "200") "t2")
           (Sample.record "blue" (Some "200") "t3")
           (Sample.record "blue" (Some "200") "t4")
           (Sample.record "blue" (Some "200") "t5")
           (Sample.record "blue" (Some "500") "t6")
           (Sample.record "blue" (Some "500") "t7")); reflexivity.
Defined.

(** ** can_send_alert *)

Lemma int_sub_some (z : Z) (x : float) :
  PyFloat.of_int z <> None -> exists r : float, PyFloat.int_sub z x = Some r.
Proof.
  unfold PyFloat.int_sub. destruct (PyFloat.of_int z); [eauto | congruence].
Qed.

Lemma int_sub_none (z : Z) (x : float) :
  PyFloat.of_int z = None -> PyFloat.int_sub z x = None.
Proof. unfold PyFloat.int_sub. now intros ->. Qed.

Lemma can_send_alert_refused (kind : string) (now : float) (w : LogWatcher) :
  in_cooldown kind now w = true -> gate_safe w ->
  can_send_alert kind now w = (Returns false, w).
Proof.
  unfold in_cooldown, last_time, can_send_alert, gate_safe.
  intros -> Hs. now destruct (int_sub_some _ (PrimFloat.sub now
    (default 0%float (last_alert_time w !! kind))) Hs) as [r ->].
Qed.

(** A refusal whose message cannot be computed. *)
Lemma can_send_alert_overflow (kind : string) (now : float) (w : LogWatcher) :
  in_cooldown kind now w = true -> ~ gate_safe w ->
  can_send_alert kind now w = (Raises OverflowError, w).
Proof.
  unfold in_cooldown, last_time, can_send_alert, gate_safe.
  intros -> Hs. rewrite int_sub_none; [reflexivity|].
  destruct (PyFloat.of_int (cooldown_sec w)); [|reflexivity].
  exfalso. apply Hs. discriminate.
Qed.

Lemma can_send_alert_approved (kind : string) (now : float) (w : LogWatcher) :
  in_cooldown kind now w = false ->
  can_send_alert kind now w =
    (Returns true,
     set_last_alert_time (<[kind := now]> (last_alert_time w)) w).
Proof.
  unfold in_cooldown, last_time, can_send_alert. now intros ->.
Qed.

(** Whether it returns or raises, a refusal leaves the watcher as it
    was. *)
Lemma can_send_alert_refused_state (kind : string) (now : float)
    (w : LogWatcher) :
  in_cooldown kind now w = true -> snd (can_send_alert kind now w) = w.
Proof.
  unfold in_cooldown, last_time, can_send_alert. intros ->.
  now destruct (PyFloat.int_sub _ _).
Qed.

Lemma gate_safe_dec (w : LogWatcher) : gate_safe w \/ ~ gate_safe w.
Proof.
  unfold gate_safe. destruct (PyFloat.of_int (cooldown_sec w));
    [left; discriminate | right; congruence].
Qed.

Lemma last_time_approved (kind : string) (now : float) (w : LogWatcher) :
  last_time kind
    (set_last_alert_time (<[kind := now]> (last_alert_time w)) w) = now.
Proof.
  unfold last_time. cbn [last_alert_time set_last_alert_time].
  now rewrite lookup_insert_eq.
Qed.

(** An approval of one kind leaves the time of every other kind alone. *)
Lemma last_time_other (kind other : string) (now : float) (w : LogWatcher) :
  kind <> other ->
  last_time other
    (set_last_alert_time (<[kind := now]> (last_alert_time w)) w)
  = last_time other w.
Proof.
  intros Hne. unfold last_time. cbn [last_alert_time set_last_alert_time].
  now rewrite lookup_insert_ne.
Qed.

(** C4, as the code has it. The time an alert kind was last approved is
    read with a default of 0, so for a kind never approved the cooldown is
    counted from time 0. An attempt less than [cooldown_sec] after that
    time is refused and changes nothing: it returns [False] when
    [cooldown_sec] converts to a float, and the computation of its
    message raises [OverflowError] when it does not. Any other attempt is
    approved and records [now] for the kind, and for that kind only.
    Hence, with a [cooldown_sec] that converts to a float, when a first
    attempt is out of cooldown, it is approved, a second one less than
    [cooldown_sec] after it is refused, and a third one not less than
    [cooldown_sec] after the first is approved. *)
Theorem can_send_alert_cooldown :
  forall (kind : string) (now1 now2 now3 : float) (w : LogWatcher),
    (in_cooldown kind now1 w = true ->
     snd (can_send_alert kind now1 w) = w /\
     (gate_safe w -> can_send_alert kind now1 w = (Returns false, w)) /\
     (~ gate_safe w ->
      can_send_alert kind now1 w = (Raises OverflowError, w))) /\
    (in_cooldown kind now1 w = false ->
     can_send_alert kind now1 w
       = (Returns true,
          set_last_alert_time (<[kind := now1]> (last_alert_time w)) w)
     /\ last_alert_time (snd (can_send_alert kind now1 w)) !! kind = Some now1
     /\ forall other : string, kind <> other ->
          last_alert_time (snd (can_send_alert kind now1 w)) !! other
          = last_alert_time w !! other) /\
    (gate_safe w ->
     in_cooldown kind now1 w = false ->
     PyFloat.lt_int (PrimFloat.sub now2 now1) (cooldown_sec w) = true ->
     PyFloat.lt_int (PrimFloat.sub now3 now1) (cooldown_sec w) = false ->
     exists w1 w3 : LogWatcher,
       can_send_alert kind now1 w = (Returns true, w1) /\
       can_send_alert kind now2 w1 = (Returns false, w1) /\
       can_send_alert kind now3 w1 = (Returns true, w3) /\
       last_alert_time w3 !! kind = Some now3).
Proof.
  intros kind now1 now2 now3 w. split; [|split].
  - intros H. split; [now apply can_send_alert_refused_state|]. split.
    + now apply can_send_alert_refused.
    + now apply can_send_alert_overflow.
  - intros H. rewrite (can_send_alert_approved _ _ _ H).
    cbn [snd last_alert_time set_last_alert_time].
    split; [reflexivity|]. split.
    + apply lookup_insert_eq.
    + intros other Hne. now apply lookup_insert_ne.
  - intros Hs H1 H2 H3.
    eexists. eexists. split; [apply can_send_alert_approved, H1|].
    split; [|split].
    + apply can_send_alert_refused; [|exact Hs]. unfold in_cooldown.
      rewrite last_time_approved. exact H2.
    + apply can_send_alert_approved. unfold in_cooldown.
      rewrite last_time_approved. exact H3.
    + cbn [last_alert_time set_last_alert_time]. apply lookup_insert_eq.
Qed.

Lemma can_send_alert_cooldown_witness :
  exists w1 w3 : LogWatcher,
    can_send_alert "failover" 1762214400%float Sample.watcher
      = (Returns true, w1) /\
    can_send_alert "failover" 1762214500%float w1 = (Returns false, w1) /\
    can_send_alert "failover" 1762214700%float w1 = (Returns true, w3) /\
    last_alert_time w3 !! "failover" = Some 1762214700%float.
Proof.
  apply (can_send_alert_cooldown "failover" 1762214400%float
           1762214500%float 1762214700%float Sample.watcher).
  - unfold gate_safe. vm_compute. discriminate.
  - vm_compute. reflexivity.
  - vm_compute. reflexivity.
  - vm_compute. reflexivity.
Defined.

(** C4, as the claim states it, fails for a kind that was never approved:
    with a cooldown of 2000000000 seconds, the first attempt for
    ['failover'] at time 1762214400 is refused although no alert of that
    kind was approved before. *)
Lemma can_send_alert_first_attempt_refused :
  let w := init (Some "https://hooks.slack.com/services/T0/B0/X0")
             2%float 200 2000000000 false 1762214400%float in
  last_alert_time w !! "failover" = None /\
  can_send_alert "failover" 1762214400%float w = (Returns false, w).
Proof. cbv zeta. split; [apply lookup_empty | vm_compute; reflexivity]. Qed.

(** ** send_slack_alert *)

(** In maintenance mode [send_slack_alert] returns before it gets to
    [can_send_alert]. *)
Lemma send_slack_alert_suppressed (RA : bool) (a : Alert) (now : float)
    (reply : PostOutcome) (w : LogWatcher) :
  maintenance_mode w = true ->
  send_slack_alert RA a now reply w = (Returns false, w, []).
Proof.
  intros Hm. unfold send_slack_alert. rewrite Hm.
  now destruct (PyStr.truthy_opt (slack_webhook w)).
Qed.

(** ** What each method leaves alone *)

Lemma parse_log_line_frame (line ts : string) (w : LogWatcher) :
  settings (snd (parse_log_line line ts w)) = settings w /\
  detector_state (snd (parse_log_line line ts w)) = detector_state w /\
  last_alert_time (snd (parse_log_line line ts w)) = last_alert_time w.
Proof.
  unfold parse_log_line. split_matches; repeat split.
Qed.

Lemma check_failover_frame (ld : LogData) (w : LogWatcher) :
  settings (snd (check_failover ld w)) = settings w /\
  error_window (snd (check_failover ld w)) = error_window w /\
  last_alert_time (snd (check_failover ld w)) = last_alert_time w /\
  _total_lines_processed (snd (check_failover ld w))
    = _total_lines_processed w.
Proof.
  unfold check_failover. split_matches; repeat split.
Qed.

Lemma check_error_rate_frame (ld : LogData) (w : LogWatcher) :
  settings (snd (check_error_rate ld w)) = settings w /\
  last_pool (snd (check_error_rate ld w)) = last_pool w /\
  current_pool (snd (check_error_rate ld w)) = current_pool w /\
  last_alert_time (snd (check_error_rate ld w)) = last_alert_time w.
Proof.
  unfold check_error_rate. split_matches; repeat split.
Qed.

Lemma can_send_alert_frame (kind : string) (now : float) (w : LogWatcher) :
  settings (snd (can_send_alert kind now w)) = settings w /\
  detector_state (snd (can_send_alert kind now w)) = detector_state w /\
  _total_lines_processed (snd (can_send_alert kind now w))
    = _total_lines_processed w.
Proof.
  unfold can_send_alert. split_matches; repeat split.
Qed.

Lemma status_report_frame (current_time : float) (w : LogWatcher) :
  settings (status_report current_time w) = settings w /\
  detector_state (status_report current_time w) = detector_state w /\
  last_alert_time (status_report current_time w) = last_alert_time w.
Proof.
  unfold status_report. split_matches; repeat split.
Qed.

Lemma settings_eq (w v : LogWatcher) :
  settings w = settings v ->
  slack_webhook w = slack_webhook v /\ error_threshold w = error_threshold v /\
  window_size w = window_size v /\ cooldown_sec w = cooldown_sec v /\
  maintenance_mode w = maintenance_mode v.
Proof. unfold settings. intros [= -> -> -> -> ->]. repeat split. Qed.

Lemma detector_state_eq (w v : LogWatcher) :
  detector_state w = detector_state v ->
  last_pool w = last_pool v /\ current_pool w = current_pool v /\
  error_window w = error_window v.
Proof. unfold detector_state. intros [= -> -> ->]. repeat split. Qed.

Lemma gate_safe_settings (w v : LogWatcher) :
  settings v = settings w -> gate_safe w -> gate_safe v.
Proof.
  intros Hs. apply settings_eq in Hs as (_ & _ & _ & Hc & _).
  unfold gate_safe. now rewrite Hc.
Qed.

(** [send_slack_alert] in one piece: the three tests and the cooldown
    decide between the ways the call can go. *)
Lemma send_slack_alert_unfold (RA : bool) (a : Alert) (now : float)
    (reply : PostOutcome) (w : LogWatcher) :
  send_slack_alert RA a now reply w
  = if can_post RA w
    then
      if in_cooldown (alert_type a) now w
      then (match PyFloat.of_int (cooldown_sec w) with
            | Some _ => Returns false
            | None => Raises OverflowError
            end, w, [])
      else (Returns match reply with
                    | Response status_code => status_code =? 200
                    | PostRaises => false
                    end,
            set_last_alert_time
              (<[alert_type a := now]> (last_alert_time w)) w,
            [build_message a w])
    else (Returns false, w, []).
Proof.
  unfold can_post, send_slack_alert.
  destruct (PyStr.truthy_opt (slack_webhook w)); cbn [negb andb]; [|reflexivity].
  destruct (maintenance_mode w); cbn [negb andb]; [reflexivity|].
  destruct RA; cbn [negb andb]; [|reflexivity].
  destruct (in_cooldown (alert_type a) now w) eqn:Hc.
  - destruct (PyFloat.of_int (cooldown_sec w)) as [c|] eqn:Hs.
    + rewrite can_send_alert_refused; [reflexivity | exact Hc |].
      unfold gate_safe. congruence.
    + rewrite can_send_alert_overflow; [reflexivity | exact Hc |].
      unfold gate_safe. congruence.
  - rewrite (can_send_alert_approved _ _ _ Hc). cbn [negb].
    destruct reply, a; reflexivity.
Qed.

(** The statement of the loop that sends an alert, in one piece. *)
Lemma dispatch_unfold (RA : bool) (alert : option Alert) (now : float)
    (reply : PostOutcome) (w : LogWatcher) :
  dispatch RA alert now reply w
  = match alert with
    | Some a =>
        if can_post RA w
        then
          if in_cooldown (alert_type a) now w
          then (match PyFloat.of_int (cooldown_sec w) with
                | Some _ => Returns tt
                | None => Raises OverflowError
                end, w, [])
          else (Returns tt,
                set_last_alert_time
                  (<[alert_type a := now]> (last_alert_time w)) w,
                [build_message a w])
        else (Returns tt, w, [])
    | None => (Returns tt, w, [])
    end.
Proof.
  unfold dispatch. destruct alert as [a|]; [|reflexivity].
  rewrite send_slack_alert_unfold.
  destruct (can_post RA w); [|reflexivity].
  destruct (in_cooldown (alert_type a) now w); [|reflexivity].
  now destruct (PyFloat.of_int (cooldown_sec w)).
Qed.

(** The reply of the webhook decides the boolean [send_slack_alert]
    returns and nothing else, and the loop does not use the boolean. *)
Lemma dispatch_reply (RA : bool) (alert : option Alert) (now : float)
    (reply reply' : PostOutcome) (w : LogWatcher) :
  dispatch RA alert now reply w = dispatch RA alert now reply' w.
Proof. now rewrite !dispatch_unfold. Qed.

Lemma dispatch_frame (RA : bool) (alert : option Alert) (now : float)
    (reply : PostOutcome) (w : LogWatcher) :
  settings (snd (fst (dispatch RA alert now reply w))) = settings w /\
  detector_state (snd (fst (dispatch RA alert now reply w)))
    = detector_state w /\
  _total_lines_processed (snd (fst (dispatch RA alert now reply w)))
    = _total_lines_processed w.
Proof.
  rewrite dispatch_unfold. split_matches; repeat split.
Qed.

(** With a cooldown that converts to a float, sending never raises. *)
Lemma dispatch_safe (RA : bool) (alert : option Alert) (now : float)
    (reply : PostOutcome) (w : LogWatcher) :
  gate_safe w -> fst (fst (dispatch RA alert now reply w)) = Returns tt.
Proof.
  unfold gate_safe. intros Hs. rewrite dispatch_unfold.
  destruct (PyFloat.of_int (cooldown_sec w)); [|congruence].
  split_matches; reflexivity.
Qed.

Lemma send_slack_alert_frame (RA : bool) (a : Alert) (now : float)
    (reply : PostOutcome) (w : LogWatcher) :
  settings (snd (fst (send_slack_alert RA a now reply w))) = settings w /\
  detector_state (snd (fst (send_slack_alert RA a now reply w)))
    = detector_state w /\
  _total_lines_processed (snd (fst (send_slack_alert RA a now reply w)))
    = _total_lines_processed w.
Proof.
  rewrite send_slack_alert_unfold. split_matches; repeat split.
Qed.

(** What [check_error_rate] returns, and the window it leaves, depend on
    the window, its size and the threshold only. *)
Lemma check_error_rate_depends (ld : LogData) (w v : LogWatcher) :
  error_window w = error_window v -> window_size w = window_size v ->
  error_threshold w = error_threshold v ->
  fst (check_error_rate ld w) = fst (check_error_rate ld v) /\
  error_window (snd (check_error_rate ld w))
    = error_window (snd (check_error_rate ld v)).
Proof.
  intros Hw Hs Ht. unfold check_error_rate.
  destruct (upstream_status ld) as [s|]; [|auto].
  destruct (PyStr.truthy s); cbn [negb]; [|auto].
  cbn [error_window set_error_window window_size error_threshold].
  rewrite Hw, Hs, Ht. split_matches; auto.
Qed.

Lemma check_failover_raises_failover (ld : LogData) (w : LogWatcher) (a : Alert) :
  fst (check_failover ld w) = Some a -> alert_type a = "failover".
Proof.
  unfold check_failover. split_matches; cbn; intros [= <-]; reflexivity.
Qed.

Lemma check_error_rate_raises_error_rate (ld : LogData) (w : LogWatcher)
    (a : Alert) :
  fst (check_error_rate ld w) = Returns (Some a) ->
  alert_type a = "high_error_rate".
Proof.
  unfold check_error_rate. split_matches; cbn; intros [= <-]; reflexivity.
Qed.

Lemma in_cooldown_depends (kind : string) (now : float) (w v : LogWatcher) :
  last_alert_time w !! kind = last_alert_time v !! kind ->
  cooldown_sec w = cooldown_sec v ->
  in_cooldown kind now w = in_cooldown kind now v.
Proof. unfold in_cooldown, last_time. now intros -> ->. Qed.

(** A line that parses to a record is not the empty string, so the loop
    does not take it for the end of the file. *)
Lemma parse_log_line_truthy (line ts : string) (w w1 : LogWatcher)
    (ld : LogData) :
  parse_log_line line ts w = (Some ld, w1) -> PyStr.truthy line = true.
Proof. destruct line; [discriminate | reflexivity]. Qed.

(** ** Properties every method keeps *)

(** A property of the watcher that every method keeps is kept by a pass
    of the loop, and by the loop, however they end. *)
Section Invariant.

Variable REQUESTS_AVAILABLE : bool.
Variable P : LogWatcher -> Prop.
Hypothesis parse_keeps :
  forall line ts w, P w -> P (snd (parse_log_line line ts w)).
Hypothesis failover_keeps :
  forall ld w, P w -> P (snd (check_failover ld w)).
Hypothesis error_rate_keeps :
  forall ld w, P w -> P (snd (check_error_rate ld w)).
Hypothesis gate_keeps :
  forall (a : Alert) now w,
    P w ->
    P (set_last_alert_time (<[alert_type a := now]> (last_alert_time w)) w).
Hypothesis report_keeps :
  forall current_time w, P w -> P (status_report current_time w).

Lemma dispatch_keeps (alert : option Alert) (now : float)
    (reply : PostOutcome) (w : LogWatcher) :
  P w -> P (snd (fst (dispatch REQUESTS_AVAILABLE alert now reply w))).
Proof.
  intros Hw. rewrite dispatch_unfold. split_matches; cbn [fst snd]; auto.
Qed.

Lemma watch_logs_pass_keeps (line : string) (env : Readings) (w : LogWatcher) :
  P w -> P (snd (fst (watch_logs_pass REQUESTS_AVAILABLE line env w))).
Proof.
  intros Hw. unfold watch_logs_pass.
  destruct (PyStr.truthy line); cbn [negb]; [|exact Hw].
  pose proof (parse_keeps line (parse_clock env) w Hw) as H1.
  destruct (parse_log_line line (parse_clock env) w) as [[ld|] w1];
    cbn [fst snd] in *; [|exact H1].
  pose proof (failover_keeps ld w1 H1) as H2.
  destruct (check_failover ld w1) as [fa w2]. cbn [snd] in H2.
  pose proof (dispatch_keeps fa (failover_clock env) (failover_reply env)
                w2 H2) as H3.
  destruct (dispatch REQUESTS_AVAILABLE fa _ _ w2) as [[[u|e] w3] posted1];
    cbn [fst snd] in *; [|exact H3].
  destruct (PyStr.truthy_opt (upstream_status ld));
    [|cbn [fst snd]; auto].
  pose proof (error_rate_keeps ld w3 H3) as H4.
  destruct (check_error_rate ld w3) as [[raised|e] w4]; cbn [fst snd] in *;
    [|exact H4].
  pose proof (dispatch_keeps raised (error_clock env) (error_reply env)
                w4 H4) as H5.
  destruct (dispatch REQUESTS_AVAILABLE raised _ _ w4)
    as [[[u'|e] w5] posted2]; cbn [fst snd] in *; auto.
Qed.

Lemma watch_logs_loop_keeps (input : list (string * Readings))
    (w : LogWatcher) :
  P w -> P (snd (fst (watch_logs_loop REQUESTS_AVAILABLE input w))).
Proof.
  revert w. induction input as [|[line env] input IH]; intros w Hw; [exact Hw|].
  cbn [watch_logs_loop].
  pose proof (watch_logs_pass_keeps line env w Hw) as H1.
  destruct (watch_logs_pass REQUESTS_AVAILABLE line env w)
    as [[[u|e] w1] posted]; cbn [fst snd] in *; [|exact H1].
  specialize (IH w1 H1).
  destruct (watch_logs_loop REQUESTS_AVAILABLE input w1) as [[r w2] posted'].
  exact IH.
Qed.

End Invariant.

(** The settings never change. *)
Lemma watch_logs_pass_settings_kept (RA : bool) (line : string)
    (env : Readings) (w : LogWatcher) :
  settings (snd (fst (watch_logs_pass RA line env w))) = settings w.
Proof.
  apply (watch_logs_pass_keeps RA (fun v => settings v = settings w));
    [| | | | | reflexivity]; intros.
  - destruct (parse_log_line_frame line0 ts w0) as (Hs & _). congruence.
  - destruct (check_failover_frame ld w0) as (Hs & _). congruence.
  - destruct (check_error_rate_frame ld w0) as (Hs & _). congruence.
  - exact H.
  - destruct (status_report_frame current_time w0) as (Hs & _). congruence.
Qed.

Lemma watch_logs_loop_settings_kept (RA : bool)
    (input : list (string * Readings)) (w : LogWatcher) :
  settings (snd (fst (watch_logs_loop RA input w))) = settings w.
Proof.
  apply (watch_logs_loop_keeps RA (fun v => settings v = settings w));
    [| | | | | reflexivity]; intros.
  - destruct (parse_log_line_frame line ts w0) as (Hs & _). congruence.
  - destruct (check_failover_frame ld w0) as (Hs & _). congruence.
  - destruct (check_error_rate_frame ld w0) as (Hs & _). congruence.
  - exact H.
  - destruct (status_report_frame current_time w0) as (Hs & _). congruence.
Qed.

(** ** The loop of watch_logs *)

(** A pass over a line the parser accepts. *)
Lemma watch_logs_pass_unfold (RA : bool) (line : string) (env : Readings)
    (w w1 : LogWatcher) (ld : LogData) :
  parse_log_line line (parse_clock env) w = (Some ld, w1) ->
  watch_logs_pass RA line env w =
    let (failover_alert, w) := check_failover ld w1 in
    match dispatch RA failover_alert (failover_clock env)
            (failover_reply env) w with
    | (Raises e, w, posted1) => (Raises e, w, posted1)
    | (Returns _, w, posted1) =>
        if PyStr.truthy_opt (upstream_status ld) then
          match check_error_rate ld w with
          | (Raises e, w) => (Raises e, w, posted1)
          | (Returns raised, w) =>
              match dispatch RA raised (error_clock env)
                      (error_reply env) w with
              | (Raises e, w, posted2) =>
                  (Raises e, w, (posted1 ++ posted2)%list)
              | (Returns _, w, posted2) =>
                  (Returns tt, status_report (status_clock env) w,
                   (posted1 ++ posted2)%list)
              end
          end
        else (Returns tt, status_report (status_clock env) w, posted1)
    end.
Proof.
  intros Hp. unfold watch_logs_pass.
  now rewrite (parse_log_line_truthy _ _ _ _ _ Hp), Hp.
Qed.

(** C9. A record whose upstream status is absent is turned away by
    [check_error_rate] before the window is touched: the call returns no
    alert and leaves the watcher as it was. A pass of the loop over such a
    record leaves the window as it was; and it ends normally when
    [cooldown_sec] converts to a float. *)
Theorem check_error_rate_status_absent :
  forall (REQUESTS_AVAILABLE : bool) (line : string) (env : Readings)
         (w w1 : LogWatcher) (ld : LogData),
    upstream_status ld = None ->
    check_error_rate ld w = (Returns None, w) /\
    (parse_log_line line (parse_clock env) w = (Some ld, w1) ->
     error_window (snd (fst (watch_logs_pass REQUESTS_AVAILABLE line env w)))
       = error_window w /\
     (gate_safe w ->
      fst (fst (watch_logs_pass REQUESTS_AVAILABLE line env w))
        = Returns tt)).
Proof.
  intros RA line env w w1 ld Hs. split.
  - apply check_error_rate_absent. now rewrite Hs.
  - intros Hp. rewrite (watch_logs_pass_unfold RA line env w w1 ld Hp).
    destruct (parse_log_line_frame line (parse_clock env) w) as (Hs1 & Hd & _).
    rewrite Hp in Hs1, Hd. cbn [snd] in Hs1, Hd.
    apply detector_state_eq in Hd as (_ & _ & Hd).
    destruct (check_failover_frame ld w1) as (Hs2 & Hf & _).
    destruct (check_failover ld w1) as [fa w2]. cbn [snd] in Hs2, Hf.
    destruct (dispatch_frame RA fa (failover_clock env) (failover_reply env)
                w2) as (_ & Hd3 & _).
    pose proof (dispatch_safe RA fa (failover_clock env) (failover_reply env)
                  w2) as Hsafe.
    destruct (dispatch RA fa _ _ w2) as [[r w3] posted1].
    cbn [fst snd] in Hd3, Hsafe.
    apply detector_state_eq in Hd3 as (_ & _ & Hd3).
    rewrite Hs. cbn [PyStr.truthy_opt].
    destruct (status_report_frame (status_clock env) w3) as (_ & Hr & _).
    apply detector_state_eq in Hr as (_ & _ & Hr).
    destruct r as [u|e]; cbn [fst snd].
    + split; [congruence | reflexivity].
    + split; [congruence|]. intros Hg.
      apply Hsafe. apply (gate_safe_settings w1 w2 Hs2).
      now apply (gate_safe_settings w w1 Hs1).
Qed.

Lemma check_error_rate_status_absent_witness :
  check_error_rate (Sample.record "blue" None "t1") Sample.watcher
    = (Returns None, Sample.watcher) /\
  error_window
    (snd (fst (watch_logs_pass true Sample.line_without_status
                 Sample.readings Sample.watcher)))
  = error_window Sample.watcher.
Proof.
  split.
  - apply (check_error_rate_status_absent true "" Sample.readings
             Sample.watcher Sample.watcher (Sample.record "blue" None "t1")).
    reflexivity.
  - destruct (check_error_rate_status_absent true Sample.line_without_status
                Sample.readings Sample.watcher
                (snd (parse_log_line Sample.line_without_status
                        (parse_clock Sample.readings) Sample.watcher))
                {| pool := "blue"; release := "v1"; upstream_status := None;
                   upstream_addr := None; request_time := 0.5%float;
                   timestamp := parse_clock Sample.readings;
                   raw_line := PyStr.strip Sample.line_without_status |})
      as [_ H]; [reflexivity|].
    apply H. vm_compute. reflexivity.
Defined.

(** The replies of the webhook change neither the watcher a pass leaves,
    nor what the pass posts, nor how it ends. *)
Lemma watch_logs_pass_replies (RA : bool) (line : string) (env : Readings)
    (reply1 reply2 : PostOutcome) (w : LogWatcher) :
  watch_logs_pass RA line (with_replies reply1 reply2 env) w
  = watch_logs_pass RA line env w.
Proof.
  unfold watch_logs_pass.
  cbn [with_replies parse_clock failover_clock failover_reply error_clock
       error_reply status_clock].
  destruct (PyStr.truthy line); cbn [negb]; [|reflexivity].
  destruct (parse_log_line line (parse_clock env) w) as [[ld|] w1];
    [|reflexivity].
  destruct (check_failover ld w1) as [fa w2].
  rewrite (dispatch_reply RA fa (failover_clock env) reply1
             (failover_reply env) w2).
  destruct (dispatch RA fa _ _ w2) as [[[u|e] w3] posted1]; [|reflexivity].
  destruct (PyStr.truthy_opt (upstream_status ld)); [|reflexivity].
  destruct (check_error_rate ld w3) as [[raised|e] w4]; [|reflexivity].
  now rewrite (dispatch_reply RA raised (error_clock env) reply2
                 (error_reply env) w4).
Qed.

(** ** The loop over many lines *)

(** A pass keeps the settings, and keeps the stored pool well formed. *)
Lemma watch_logs_pass_settings (RA : bool) (line : string) (env : Readings)
    (w : LogWatcher) :
  settings (snd (fst (watch_logs_pass RA line env w))) = settings w /\
  (last_pool_ok w ->
   last_pool_ok (snd (fst (watch_logs_pass RA line env w)))).
Proof.
  split; [apply watch_logs_pass_settings_kept|].
  apply (watch_logs_pass_keeps RA last_pool_ok); unfold last_pool_ok; intros.
  - destruct (parse_log_line_frame line0 ts w0) as (_ & Hd & _).
    apply detector_state_eq in Hd as (-> & _). exact H.
  - now apply check_failover_last_pool_ok.
  - destruct (check_error_rate_frame ld w0) as (_ & -> & _). exact H.
  - exact H.
  - destruct (status_report_frame current_time w0) as (_ & Hd & _).
    apply detector_state_eq in Hd as (-> & _). exact H.
Qed.

(** The stored pool is well formed in every state the loop reaches. *)
Lemma watch_logs_loop_last_pool_ok (RA : bool)
    (input : list (string * Readings)) (w : LogWatcher) :
  last_pool_ok w -> last_pool_ok (snd (fst (watch_logs_loop RA input w))).
Proof.
  revert w. induction input as [|[line env] input IH]; intros w Hw; [exact Hw|].
  cbn [watch_logs_loop].
  destruct (watch_logs_pass_settings RA line env w) as [_ Hok].
  destruct (watch_logs_pass RA line env w) as [[[u|e] w1] posted];
    cbn [fst snd] in *; [|auto].
  specialize (IH w1 (Hok Hw)).
  destruct (watch_logs_loop RA input w1) as [[r w2] posted']. exact IH.
Qed.

Lemma init_last_pool_ok (webhook : option string) (threshold : float)
    (size : nat) (cooldown : Z) (maintenance : bool) (start : float) :
  last_pool_ok (init webhook threshold size cooldown maintenance start).
Proof. discriminate. Qed.

Lemma can_post_settings (RA : bool) (w v : LogWatcher) :
  settings v = settings w -> can_post RA v = can_post RA w.
Proof.
  intros Hs. apply settings_eq in Hs as (Hw & _ & _ & _ & Hm).
  unfold can_post. now rewrite Hw, Hm.
Qed.

Lemma dispatch_cannot_post (RA : bool) (alert : option Alert) (now : float)
    (reply : PostOutcome) (w : LogWatcher) :
  can_post RA w = false -> dispatch RA alert now reply w = (Returns tt, w, []).
Proof. intros H. rewrite dispatch_unfold, H. now destruct alert. Qed.

(** When one of the three tests of [send_slack_alert] fails, a pass posts
    nothing, leaves the times of the last alerts alone and does not get
    to [can_send_alert]. *)
Lemma watch_logs_pass_cannot_post (RA : bool) (line : string) (env : Readings)
    (w : LogWatcher) :
  can_post RA w = false ->
  snd (watch_logs_pass RA line env w) = [] /\
  last_alert_time (snd (fst (watch_logs_pass RA line env w)))
    = last_alert_time w.
Proof.
  intros Hc. unfold watch_logs_pass.
  destruct (PyStr.truthy line); cbn [negb]; [|auto].
  destruct (parse_log_line_frame line (parse_clock env) w) as (Hs1 & _ & Ha1).
  destruct (parse_log_line line (parse_clock env) w) as [[ld|] w1];
    cbn [fst snd] in *; [|auto].
  destruct (check_failover_frame ld w1) as (Hs2 & _ & Ha2 & _).
  destruct (check_failover ld w1) as [fa w2]. cbn [snd] in *.
  assert (can_post RA w2 = false) as Hc2.
  { rewrite (can_post_settings RA w1 w2 Hs2).
    now rewrite (can_post_settings RA w w1 Hs1). }
  rewrite (dispatch_cannot_post RA fa _ _ w2 Hc2).
  destruct (status_report_frame (status_clock env) w2) as (_ & _ & Ha3).
  destruct (PyStr.truthy_opt (upstream_status ld));
    [|cbn [fst snd]; split; [reflexivity | congruence]].
  destruct (check_error_rate_frame ld w2) as (Hs4 & _ & _ & Ha4).
  destruct (check_error_rate ld w2) as [[raised|e] w4]; cbn [fst snd] in *.
  - rewrite dispatch_cannot_post
      by now rewrite (can_post_settings RA w2 w4 Hs4).
    cbn [fst snd app].
    destruct (status_report_frame (status_clock env) w4) as (_ & _ & Ha5).
    split; [reflexivity | congruence].
  - split; [reflexivity | congruence].
Qed.

Lemma watch_logs_loop_silent (RA : bool) (input : list (string * Readings))
    (w : LogWatcher) :
  can_post RA w = false ->
  snd (watch_logs_loop RA input w) = [] /\
  last_alert_time (snd (fst (watch_logs_loop RA input w)))
    = last_alert_time w.
Proof.
  revert w. induction input as [|[line env] input IH]; intros w Hc; [auto|].
  cbn [watch_logs_loop].
  destruct (watch_logs_pass_cannot_post RA line env w Hc) as [Hp Ha].
  destruct (watch_logs_pass_settings RA line env w) as [Hs _].
  destruct (watch_logs_pass RA line env w) as [[[u|e] w1] posted];
    cbn [fst snd] in *; [|auto].
  destruct (IH w1) as [Hp' Ha'].
  { now rewrite (can_post_settings RA w w1 Hs). }
  destruct (watch_logs_loop RA input w1) as [[r w2] posted'].
  cbn [fst snd] in *. subst. split; [reflexivity | congruence].
Qed.

(** In maintenance mode the loop posts nothing and leaves the times of
    the last alerts alone. *)
Lemma watch_logs_loop_maintenance (RA : bool)
    (input : list (string * Readings)) (w : LogWatcher) :
  maintenance_mode w = true ->
  snd (watch_logs_loop RA input w) = [] /\
  last_alert_time (snd (fst (watch_logs_loop RA input w)))
    = last_alert_time w.
Proof.
  intros Hm. apply watch_logs_loop_silent. unfold can_post. rewrite Hm.
  now destruct (PyStr.truthy_opt (slack_webhook w)).
Qed.

(** The replies of the webhook change nothing of what the loop does. *)
Lemma watch_logs_loop_replies (RA : bool) (reply1 reply2 : PostOutcome)
    (input : list (string * Readings)) (w : LogWatcher) :
  watch_logs_loop RA (input_with_replies reply1 reply2 input) w
  = watch_logs_loop RA input w.
Proof.
  revert w. induction input as [|[line env] input IH]; intros w; [reflexivity|].
  cbn [watch_logs_loop input_with_replies map fst snd].
  rewrite watch_logs_pass_replies.
  destruct (watch_logs_pass RA line env w) as [[[u|e] w1] posted];
    [|reflexivity].
  fold (input_with_replies reply1 reply2 input). now rewrite IH.
Qed.

(** C5. In maintenance mode every call of [send_slack_alert] returns
    [False] before [can_send_alert] is reached: the watcher, and with it
    [last_alert_time], is left as it was, and nothing is posted. So the
    loop, however many lines it reads in maintenance mode, posts nothing
    and leaves the time of the last alert of every kind as it was. *)
Theorem send_slack_alert_maintenance :
  forall (REQUESTS_AVAILABLE : bool) (alert_data : Alert) (now : float)
         (reply : PostOutcome) (input : list (string * Readings))
         (w : LogWatcher),
    maintenance_mode w = true ->
    send_slack_alert REQUESTS_AVAILABLE alert_data now reply w
      = (Returns false, w, []) /\
    snd (watch_logs_loop REQUESTS_AVAILABLE input w) = [] /\
    last_alert_time (snd (fst (watch_logs_loop REQUESTS_AVAILABLE input w)))
      = last_alert_time w.
Proof.
  intros RA a now reply input w Hm. split.
  - now apply send_slack_alert_suppressed.
  - now apply watch_logs_loop_maintenance.
Qed.

Lemma send_slack_alert_maintenance_witness :
  send_slack_alert true (failover_event "blue" "green" "t1")
    1762214401%float (Response 200) Sample.maintenance_watcher
  = (Returns false, Sample.maintenance_watcher, []) /\
  snd (watch_logs_loop true
         [(Sample.line_green_502, Sample.readings);
          (Sample.line_dash, Sample.readings)]
         Sample.maintenance_watcher) = [] /\
  last_alert_time
    (snd (fst (watch_logs_loop true
                 [(Sample.line_green_502, Sample.readings);
                  (Sample.line_dash, Sample.readings)]
                 Sample.maintenance_watcher)))
  = last_alert_time Sample.maintenance_watcher.
Proof.
  apply (send_slack_alert_maintenance true (failover_event "blue" "green" "t1")
           1762214401%float (Response 200)
           [(Sample.line_green_502, Sample.readings);
            (Sample.line_dash, Sample.readings)]
           Sample.maintenance_watcher).
  reflexivity.
Defined.

(** C8. Take a call of [send_slack_alert] that gets to the webhook (a
    webhook is set, no maintenance mode, [requests] is there, the kind is
    out of cooldown) and whose delivery fails: the reply is not a status
    of 200, or the post raises. The call posts once and returns [False]; the
    watcher it leaves is the one a successful delivery leaves, namely the
    one left by the approval in [can_send_alert], with the detectors as
    they were and the time of the attempt recorded for the kind. A later
    alert of the same kind, less than [cooldown_sec] after the attempt, is
    not sent again: it posts nothing and leaves the watcher as it is; the
    call returns [False] when [cooldown_sec] converts to a float, and
    raises [OverflowError] in [can_send_alert] when it does not. And
    a pass of the loop, and the loop over any number of lines, ends, posts
    and leaves the watcher the same way whatever the replies of the
    webhook are. *)
Theorem send_slack_alert_failed_delivery :
  forall (alert_data later : Alert) (now now' : float)
         (reply reply' : PostOutcome) (w : LogWatcher)
         (line : string) (env : Readings) (input : list (string * Readings)),
    PyStr.truthy_opt (slack_webhook w) = true ->
    maintenance_mode w = false ->
    in_cooldown (alert_type alert_data) now w = false ->
    reply <> Response 200 ->
    let w1 := snd (can_send_alert (alert_type alert_data) now w) in
    send_slack_alert true alert_data now reply w
      = (Returns false, w1, [build_message alert_data w1]) /\
    send_slack_alert true alert_data now (Response 200) w
      = (Returns true, w1, [build_message alert_data w1]) /\
    detector_state w1 = detector_state w /\
    last_alert_time w1 !! alert_type alert_data = Some now /\
    (alert_type later = alert_type alert_data ->
     PyFloat.lt_int (PrimFloat.sub now' now) (cooldown_sec w) = true ->
     snd (fst (send_slack_alert true later now' reply' w1)) = w1 /\
     snd (send_slack_alert true later now' reply' w1) = [] /\
     (gate_safe w ->
      send_slack_alert true later now' reply' w1 = (Returns false, w1, [])) /\
     (~ gate_safe w ->
      send_slack_alert true later now' reply' w1
        = (Raises OverflowError, w1, []))) /\
    watch_logs_pass true line (with_replies reply reply' env) w
      = watch_logs_pass true line env w /\
    watch_logs_loop true (input_with_replies reply reply' input) w
      = watch_logs_loop true input w.
Proof.
  intros a later now now' reply reply' w line env input Hw Hm Hc Hr w1.
  subst w1. rewrite (can_send_alert_approved _ _ _ Hc). cbn [snd].
  assert (can_post true w = true) as Hcp.
  { unfold can_post. now rewrite Hw, Hm. }
  split; [|split; [|split; [|split; [|split; [|split]]]]].
  - rewrite send_slack_alert_unfold, Hcp, Hc.
    destruct reply as [code|]; [|now destruct a].
    destruct (Z.eqb_spec code 200) as [->|]; [congruence | now destruct a].
  - rewrite send_slack_alert_unfold, Hcp, Hc. now destruct a.
  - reflexivity.
  - cbn [last_alert_time set_last_alert_time]. apply lookup_insert_eq.
  - intros Hk Hlt.
    set (w1 := set_last_alert_time
                 (<[alert_type a := now]> (last_alert_time w)) w).
    assert (in_cooldown (alert_type later) now' w1 = true) as Hin.
    { rewrite Hk. unfold in_cooldown. subst w1.
      rewrite last_time_approved. exact Hlt. }
    rewrite send_slack_alert_unfold, Hin.
    replace (can_post true w1) with true by (symmetry; exact Hcp).
    cbn [fst snd]. split; [reflexivity|]. split; [reflexivity|].
    unfold gate_safe. subst w1. cbn [cooldown_sec set_last_alert_time].
    destruct (PyFloat.of_int (cooldown_sec w)); split; intros Hg;
      try reflexivity; exfalso; [apply Hg; discriminate | now apply Hg].
  - apply watch_logs_pass_replies.
  - apply watch_logs_loop_replies.
Qed.

Lemma send_slack_alert_failed_delivery_witness :
  let a := failover_event "blue" "green" "t1" in
  let w1 := snd (can_send_alert "failover" 1762214401%float Sample.watcher) in
  send_slack_alert true a 1762214401%float (Response 500) Sample.watcher
    = (Returns false, w1, [build_message a w1]) /\
  send_slack_alert true a 1762214501%float (Response 200) w1
    = (Returns false, w1, []).
Proof.
  cbv zeta.
  pose proof (send_slack_alert_failed_delivery
                (failover_event "blue" "green" "t1")
                (failover_event "blue" "green" "t1")
                1762214401%float 1762214501%float
                (Response 500) (Response 200) Sample.watcher
                Sample.line_green_502 Sample.readings
                [(Sample.line_green_502, Sample.readings)]) as H.
  cbv zeta in H.
  destruct H as [H1 [_ [_ [_ [H5 _]]]]];
    [reflexivity | reflexivity | vm_compute; reflexivity | discriminate |].
  split; [exact H1|].
  destruct H5 as (_ & _ & H5 & _); [reflexivity | vm_compute; reflexivity |].
  apply H5. unfold gate_safe. vm_compute. discriminate.
Defined.

(** ** Both checks in one pass *)

(** The stored pool after a pass over a parsed record is the one
    [check_failover] leaves. *)
Lemma watch_logs_pass_last_pool (RA : bool) (line : string) (env : Readings)
    (w w1 : LogWatcher) (ld : LogData) :
  parse_log_line line (parse_clock env) w = (Some ld, w1) ->
  last_pool (snd (fst (watch_logs_pass RA line env w)))
    = last_pool (snd (check_failover ld w1)).
Proof.
  intros Hp. rewrite (watch_logs_pass_unfold RA line env w w1 ld Hp).
  destruct (check_failover ld w1) as [fa w2]. cbn [snd].
  destruct (dispatch_frame RA fa (failover_clock env) (failover_reply env)
              w2) as (_ & Hd3 & _).
  destruct (dispatch RA fa _ _ w2) as [[[u|e] w3] posted1];
    cbn [fst snd] in *; apply detector_state_eq in Hd3 as (Hl3 & _);
    [|exact Hl3].
  destruct (status_report_frame (status_clock env) w3) as (_ & Hr & _).
  apply detector_state_eq in Hr as (Hr & _).
  destruct (PyStr.truthy_opt (upstream_status ld));
    [|cbn [fst snd]; congruence].
  destruct (check_error_rate_frame ld w3) as (_ & Hl4 & _).
  destruct (check_error_rate ld w3) as [[raised|e] w4]; cbn [fst snd] in *;
    [|congruence].
  destruct (dispatch_frame RA raised (error_clock env) (error_reply env)
              w4) as (_ & Hd5 & _).
  destruct (dispatch RA raised _ _ w4) as [[[u'|e] w5] posted2];
    cbn [fst snd] in *; apply detector_state_eq in Hd5 as (Hl5 & _);
    [|congruence].
  destruct (status_report_frame (status_clock env) w5) as (_ & Hr5 & _).
  apply detector_state_eq in Hr5 as (Hr5 & _). congruence.
Qed.

(** When sending the failover alert does not raise, the window after the
    pass is the one [check_error_rate] leaves, and the pass ends as
    [check_error_rate] does unless sending the error-rate alert raises. *)
Lemma watch_logs_pass_window (RA : bool) (line : string) (env : Readings)
    (w w1 : LogWatcher) (ld : LogData) :
  parse_log_line line (parse_clock env) w = (Some ld, w1) ->
  fst (fst (dispatch RA (fst (check_failover ld w1)) (failover_clock env)
              (failover_reply env) (snd (check_failover ld w1))))
    = Returns tt ->
  error_window (snd (fst (watch_logs_pass RA line env w)))
    = error_window (snd (check_error_rate ld w1)) /\
  (gate_safe w ->
   fst (fst (watch_logs_pass RA line env w))
   = match fst (check_error_rate ld w1) with
     | Raises e => Raises e
     | Returns _ => Returns tt
     end).
Proof.
  intros Hp. rewrite (watch_logs_pass_unfold RA line env w w1 ld Hp).
  destruct (parse_log_line_frame line (parse_clock env) w) as (Hs1 & _).
  rewrite Hp in Hs1. cbn [snd] in Hs1.
  destruct (check_failover_frame ld w1) as (Hs2 & He2 & _).
  destruct (check_failover ld w1) as [fa w2]. cbn [fst snd] in *.
  destruct (dispatch_frame RA fa (failover_clock env) (failover_reply env)
              w2) as (Hs3 & Hd3 & _).
  destruct (dispatch RA fa _ _ w2) as [[r w3] posted1]. cbn [fst snd] in *.
  intros ->.
  apply detector_state_eq in Hd3 as (_ & _ & He3).
  assert (settings w3 = settings w1) as Hs31 by congruence.
  apply settings_eq in Hs31 as (_ & Ht & Hz & _).
  destruct (check_error_rate_depends ld w3 w1) as [Hfst Hwin];
    [congruence.. |].
  rewrite <- Hfst, <- Hwin.
  destruct (status_report_frame (status_clock env) w3) as (_ & Hr & _).
  apply detector_state_eq in Hr as (_ & _ & Hr).
  destruct (PyStr.truthy_opt (upstream_status ld)) eqn:Hst.
  2:{ rewrite (check_error_rate_absent ld w3 Hst). cbn [fst snd]. auto. }
  destruct (check_error_rate_frame ld w3) as (Hs4 & _).
  destruct (check_error_rate ld w3) as [[raised|e] w4]; cbn [fst snd] in *;
    [|auto].
  destruct (dispatch_frame RA raised (error_clock env) (error_reply env)
              w4) as (_ & Hd5 & _).
  pose proof (dispatch_safe RA raised (error_clock env) (error_reply env)
                w4) as Hsafe.
  destruct (dispatch RA raised _ _ w4) as [[r w5] posted2].
  cbn [fst snd] in *. apply detector_state_eq in Hd5 as (_ & _ & He5).
  destruct (status_report_frame (status_clock env) w5) as (_ & Hr5 & _).
  apply detector_state_eq in Hr5 as (_ & _ & Hr5).
  destruct r as [u|e]; cbn [fst snd].
  - split; [congruence | reflexivity].
  - split; [congruence|]. intros Hg. apply Hsafe.
    apply (gate_safe_settings w3 w4 Hs4), (gate_safe_settings w2 w3 Hs3).
    now apply (gate_safe_settings w1 w2 Hs2), (gate_safe_settings w w1 Hs1).
Qed.

(** With a cooldown that converts to a float, every pass over a parsed
    record runs both detectors, each on its own part of the watcher: the
    stored pool after the pass is the one [check_failover] leaves, and the
    window the one [check_error_rate] leaves, whatever the other check
    raised and whether or not an alert went out. *)
Lemma watch_logs_pass_detectors (RA : bool) (line : string) (env : Readings)
    (w w1 : LogWatcher) (ld : LogData) :
  gate_safe w ->
  parse_log_line line (parse_clock env) w = (Some ld, w1) ->
  last_pool (snd (fst (watch_logs_pass RA line env w)))
    = last_pool (snd (check_failover ld w1)) /\
  error_window (snd (fst (watch_logs_pass RA line env w)))
    = error_window (snd (check_error_rate ld w1)) /\
  fst (fst (watch_logs_pass RA line env w))
  = match fst (check_error_rate ld w1) with
    | Raises e => Raises e
    | Returns _ => Returns tt
    end.
Proof.
  intros Hg Hp. split; [now apply watch_logs_pass_last_pool|].
  destruct (watch_logs_pass_window RA line env w w1 ld Hp) as [H1 H2]; auto.
  apply dispatch_safe.
  destruct (parse_log_line_frame line (parse_clock env) w) as (Hs1 & _).
  rewrite Hp in Hs1. cbn [snd] in Hs1.
  destruct (check_failover_frame ld w1) as (Hs2 & _).
  now apply (gate_safe_settings w1 _ Hs2), (gate_safe_settings w w1 Hs1).
Qed.

Lemma build_message_error_rate (a : Alert) (w v : LogWatcher) :
  alert_type a = "high_error_rate" -> build_message a w = build_message a v.
Proof. destruct a; [discriminate | reflexivity]. Qed.

Lemma build_message_failover (a : Alert) (w v : LogWatcher) :
  _total_lines_processed w = _total_lines_processed v ->
  build_message a w = build_message a v.
Proof. destruct a; cbn; congruence. Qed.

(** When both checks raise on one record and both alerts are approved,
    the pass posts the failover message and then the error-rate message. *)
Lemma watch_logs_pass_both (line : string) (env : Readings)
    (w w1 : LogWatcher) (ld : LogData) (f e : Alert) :
  parse_log_line line (parse_clock env) w = (Some ld, w1) ->
  fst (check_failover ld w1) = Some f ->
  fst (check_error_rate ld w1) = Returns (Some e) ->
  PyStr.truthy_opt (slack_webhook w) = true ->
  maintenance_mode w = false ->
  in_cooldown "failover" (failover_clock env) w = false ->
  in_cooldown "high_error_rate" (error_clock env) w = false ->
  fst (fst (watch_logs_pass true line env w)) = Returns tt /\
  snd (watch_logs_pass true line env w)
    = [build_message f w1; build_message e w1].
Proof.
  intros Hp Hf He Hw Hm Hcf Hce.
  rewrite (watch_logs_pass_unfold true line env w w1 ld Hp).
  destruct (parse_log_line_frame line (parse_clock env) w) as (Hs1 & _ & Ha1).
  rewrite Hp in Hs1, Ha1. cbn [snd] in Hs1, Ha1.
  assert (can_post true w = true) as Hcp.
  { unfold can_post. now rewrite Hw, Hm. }
  pose proof (check_failover_raises_failover ld w1 f Hf) as Hkf.
  pose proof (check_error_rate_raises_error_rate ld w1 e He) as Hke.
  destruct (check_failover_frame ld w1) as (Hs2 & He2 & Ha2 & Hn2).
  destruct (check_failover ld w1) as [fa w2]. cbn [fst snd] in *. subst fa.
  rewrite dispatch_unfold.
  assert (can_post true w2 = true) as Hcp2.
  { now rewrite (can_post_settings true w1 w2 Hs2),
      (can_post_settings true w w1 Hs1). }
  rewrite Hcp2.
  apply settings_eq in Hs1 as (_ & Ht1 & Hz1 & Hc1 & _).
  apply settings_eq in Hs2 as (_ & Ht2 & Hz2 & Hc2 & _).
  replace (in_cooldown (alert_type f) (failover_clock env) w2) with false.
  2:{ rewrite Hkf. symmetry. etransitivity; [|exact Hcf].
      apply in_cooldown_depends; congruence. }
  set (w3 := set_last_alert_time _ w2).
  destruct (PyStr.truthy_opt (upstream_status ld)) eqn:Hst.
  2:{ rewrite (check_error_rate_absent ld w1 Hst) in He. discriminate. }
  destruct (check_error_rate_depends ld w3 w1) as [Hfst _];
    [subst w3; cbn; congruence.. |].
  destruct (check_error_rate_frame ld w3) as (Hs4 & _ & _ & Ha4).
  destruct (check_error_rate ld w3) as [r w4]. cbn [fst snd] in *.
  rewrite He in Hfst. subst r.
  rewrite dispatch_unfold.
  replace (can_post true w4) with true.
  2:{ rewrite (can_post_settings true w3 w4 Hs4). symmetry. exact Hcp2. }
  apply settings_eq in Hs4 as (_ & _ & _ & Hc4 & _).
  replace (in_cooldown (alert_type e) (error_clock env) w4) with false.
  2:{ rewrite Hke. symmetry. etransitivity; [|exact Hce].
      apply in_cooldown_depends.
      - rewrite Ha4. subst w3. cbn [last_alert_time set_last_alert_time].
        rewrite lookup_insert_ne by (rewrite Hkf; discriminate). congruence.
      - rewrite Hc4. subst w3. cbn. congruence. }
  cbn [fst snd app]. split; [reflexivity|].
  f_equal; [apply build_message_failover; exact Hn2|].
  f_equal. apply build_message_error_rate, Hke.
Qed.

(** C7, as the code has it at a cooldown of 10^400 seconds. The record of
    the line is served by green after blue and has status 502 on a window
    with one error among four samples: [check_failover] raises a failover
    alert and [check_error_rate], were it called, would raise an error-rate
    alert. But the failover alert is in cooldown, [can_send_alert] cannot
    compute the remaining time and raises [OverflowError], and the pass
    ends there: nothing is posted and the window is left without the
    sample of the record. With a cooldown of 300 seconds the same pass
    runs both checks and posts the failover message and then the
    error-rate message. *)
Theorem watch_logs_pass_gate_overflow :
  fst (parse_log_line Sample.line_green_502 "2025-11-04T00:00:01"
         Sample.overflow_watcher)
    = Some (Sample.record_green_502 "2025-11-04T00:00:01") /\
  fst (check_failover (Sample.record_green_502 "2025-11-04T00:00:01")
         Sample.overflow_watcher)
    = Some (failover_event "blue" "green" "2025-11-04T00:00:01") /\
  fst (check_error_rate (Sample.record_green_502 "2025-11-04T00:00:01")
         Sample.overflow_watcher)
    = Returns (Some (error_alert 40%float 20%float 5 2
                       "2025-11-04T00:00:01")) /\
  in_cooldown "failover" (failover_clock Sample.readings)
    Sample.overflow_watcher = true /\
  PyFloat.of_int (cooldown_sec Sample.overflow_watcher) = None /\
  fst (fst (watch_logs_pass true Sample.line_green_502 Sample.readings
              Sample.overflow_watcher)) = Raises OverflowError /\
  snd (watch_logs_pass true Sample.line_green_502 Sample.readings
         Sample.overflow_watcher) = [] /\
  error_window
    (snd (fst (watch_logs_pass true Sample.line_green_502 Sample.readings
                 Sample.overflow_watcher)))
  = [false; false; false; true] /\
  fst (fst (watch_logs_pass true Sample.line_green_502 Sample.readings
              Sample.busy_watcher)) = Returns tt /\
  error_window
    (snd (fst (watch_logs_pass true Sample.line_green_502 Sample.readings
                 Sample.busy_watcher)))
  = [false; false; false; true; true] /\
  snd (watch_logs_pass true Sample.line_green_502 Sample.readings
         Sample.busy_watcher)
  = [failover_message "blue" "green" "2025-11-04T00:00:01" 1;
     error_rate_message 40%float 20%float 2 5 "2025-11-04T00:00:01"].
Proof.
  repeat split; vm_compute; reflexivity.
Qed.

(** ** Strings and patterns *)

Lemma string_app_cons (x : ascii) (a b : string) :
  String x a ++ b = String x (a ++ b).
Proof. reflexivity. Qed.




Lemma all_space_lstrip (s : string) :
  all_space (PyStr.lstrip s) = all_space s.
Proof.
  induction s as [|c s IH]; cbn; [reflexivity|].
  destruct (PyStr.isspace c) eqn:Hc; cbn; [exact IH | now rewrite Hc].
Qed.

Lemma truthy_rstrip (s : string) :
  PyStr.truthy (PyStr.rstrip s) = negb (all_space s).
Proof.
  induction s as [|c s IH]; cbn; [reflexivity|].
  destruct (PyStr.rstrip s); cbn in *.
  - apply (f_equal negb) in IH. rewrite negb_involutive in IH. cbn in IH.
    rewrite <- IH, andb_true_r. now destruct (PyStr.isspace c).
  - apply (f_equal negb) in IH. rewrite negb_involutive in IH. cbn in IH.
    now rewrite <- IH, andb_false_r.
Qed.

(** The test for a blank line: [line.strip()] is empty exactly when the
    line is whitespace throughout. *)
Lemma truthy_strip (s : string) :
  PyStr.truthy (PyStr.strip s) = negb (all_space s).
Proof. unfold PyStr.strip. now rewrite truthy_rstrip, all_space_lstrip. Qed.

Lemma match_literal_split (lit s r : string) :
  Re.match_literal lit s = Some r -> s = lit ++ r.
Proof.
  revert s. induction lit as [|a lit IH]; intros s; cbn.
  - now intros [= ->].
  - destruct s as [|b s]; [discriminate|].
    destruct (Ascii.eqb_spec a b) as [->|]; [|discriminate].
    intros H. now rewrite (IH _ H).
Qed.









(** ** The window as the last items *)

Lemma deque_append_lastn (maxlen : nat) (d : list bool) (x : bool) :
  (length d <= maxlen)%nat ->
  deque_append maxlen d x = lastn maxlen (d ++ [x])%list.
Proof.
  intros H. unfold deque_append, lastn. rewrite length_app. cbn [length].
  destruct (Nat.ltb_spec maxlen (length d + 1)) as [Hlt|Hge].
  - replace (length d + 1 - maxlen)%nat with 1%nat by lia.
    now destruct (d ++ [x])%list.
  - now replace (length d + 1 - maxlen)%nat with 0%nat by lia.
Qed.

Lemma lastn_length {A : Type} (n : nat) (l : list A) :
  length (lastn n l) = Nat.min n (length l).
Proof. unfold lastn. rewrite length_skipn. lia. Qed.

Lemma lastn_app {A : Type} (n : nat) (a b : list A) :
  lastn n (lastn n a ++ b)%list = lastn n (a ++ b)%list.
Proof.
  unfold lastn at 1 3. rewrite !length_app, lastn_length.
  rewrite !skipn_app, lastn_length. unfold lastn.
  rewrite skipn_skipn. f_equal; f_equal; lia.
Qed.

Lemma lastn_all {A : Type} (n : nat) (l : list A) :
  (length l <= n)%nat -> lastn n l = l.
Proof.
  intros H. unfold lastn. now replace (length l - n)%nat with 0%nat by lia.
Qed.

Lemma sum_app (a b : list bool) : sum (a ++ b) = (sum a + sum b)%nat.
Proof. induction a as [|x a IH]; cbn; [reflexivity | rewrite IH; lia]. Qed.


(** ** parse_log_line *)




(** C3, as the code has it. The line [pool="blue" upstream_status=200
    request_time=1.2.3] has a pool token, and the request-time pattern
    captures [1.2.3]; [float] raises on it, the handler of the method
    catches that, and the method returns no record. The same line with
    [request_time=abc], which the pattern does not match, is parsed to a
    record with a request time of 0. *)
Theorem parse_log_line_two_dots :
  forall (ts : string) (w : LogWatcher),
    Re.search Re.pool_pattern Sample.line_two_dots = Some "blue" /\
    Re.search Re.request_time_pattern Sample.line_two_dots = Some "1.2.3" /\
    PyFloat.of_decimal "1.2.3" = None /\
    fst (parse_log_line Sample.line_two_dots ts w) = None /\
    exists ld : LogData,
      fst (parse_log_line Sample.line_no_digits ts w) = Some ld /\
      pool ld = "blue" /\ request_time ld = 0%float.
Proof.
  intros ts w. repeat split; try (vm_compute; reflexivity).
  eexists. repeat split; vm_compute; reflexivity.
Qed.




(** * Further properties *)

(** ** What the patterns find *)

Lemma span_spec (cls : ascii -> bool) (s g r : string) :
  Re.span cls s = (g, r) ->
  s = g ++ r /\ all_in cls g = true /\ starts_in cls r = false.
Proof.
  revert g r. induction s as [|c s IH]; intros g r; cbn.
  - intros [= <- <-]. auto.
  - destruct (cls c) eqn:Hc.
    + destruct (Re.span cls s) as [g' r'] eqn:Hs. intros [= <- <-].
      destruct (IH g' r' eq_refl) as (-> & Hg & Hr).
      rewrite string_app_cons. cbn. rewrite Hc. auto.
    + intros [= <- <-]. cbn. auto.
Qed.

Lemma match_plus_sound (lit : string) (cls : ascii -> bool) (s g : string) :
  Re.match_plus lit cls s = Some g ->
  exists b : string,
    s = lit ++ g ++ b /\ g <> "" /\ all_in cls g = true /\
    starts_in cls b = false.
Proof.
  unfold Re.match_plus.
  destruct (Re.match_literal lit s) as [r|] eqn:Hm; [|discriminate].
  apply match_literal_split in Hm. subst s.
  destruct (Re.span cls r) as [g' b] eqn:Hs. cbn [fst].
  destruct (span_spec cls r g' b Hs) as (-> & Hg & Hb).
  destruct g' as [|c g']; [discriminate|]. intros [= <-].
  exists b. repeat split; auto.
Qed.

Lemma match_quoted_sound (lit s g : string) :
  Re.match_quoted lit s = Some g ->
  exists b : string,
    s = lit ++ g ++ String PyStr.dquote b /\
    all_in (fun c => negb (Ascii.eqb c PyStr.dquote)) g = true.
Proof.
  unfold Re.match_quoted.
  destruct (Re.match_literal lit s) as [r|] eqn:Hm; [|discriminate].
  apply match_literal_split in Hm. subst s.
  destruct (Re.span _ r) as [g' r'] eqn:Hs.
  destruct (span_spec _ r g' r' Hs) as (-> & Hg & _).
  destruct (Re.match_literal (String PyStr.dquote "") r') as [b|] eqn:Hq;
    [|discriminate].
  apply match_literal_split in Hq. subst r'. intros [= <-].
  exists b. split; [reflexivity | exact Hg].
Qed.

(** What [re.search] returns was matched at some position of the text. *)
Lemma search_sound (m : string -> option string) (s g : string) :
  Re.search m s = Some g ->
  exists a t : string, s = a ++ t /\ m t = Some g.
Proof.
  induction s as [|c s IH]; cbn [Re.search].
  - destruct (m "") eqn:Hm; [|discriminate]. intros [= <-].
    exists "", "". auto.
  - destruct (m (String c s)) eqn:Hm.
    + intros [= <-]. exists "", (String c s). auto.
    + intros H. destruct (IH H) as (a & t & -> & Ht).
      exists (String c a), t. auto.
Qed.

Lemma occurs_match_literal (lit s : string) :
  occurs lit s = false -> Re.match_literal lit s = None.
Proof.
  destruct s; cbn [occurs]; destruct (Re.match_literal lit _);
    [discriminate | reflexivity | discriminate | reflexivity].
Qed.

Lemma occurs_tail (lit : string) (c : ascii) (s : string) :
  occurs lit (String c s) = false -> occurs lit s = false.
Proof.
  cbn [occurs]. now destruct (Re.match_literal lit (String c s)).
Qed.

(** A pattern that starts with a literal finds nothing in a text where
    the literal does not occur. *)
Lemma search_without_literal (lit : string) (m : string -> option string)
    (s : string) :
  (forall t, Re.match_literal lit t = None -> m t = None) ->
  occurs lit s = false -> Re.search m s = None.
Proof.
  intros Hm. induction s as [|c s IH]; intros Ho; cbn [Re.search].
  - now rewrite (Hm "" (occurs_match_literal lit "" Ho)).
  - rewrite (Hm _ (occurs_match_literal lit _ Ho)).
    apply IH. now apply occurs_tail in Ho.
Qed.

(** ** More on parse_log_line *)

(** X1. A line of whitespace only, the empty line included, gives no
    record: the parser counts it in [_total_lines_processed] and changes
    nothing else. *)
Theorem parse_log_line_blank :
  forall (line ts : string) (w : LogWatcher),
    all_space line = true ->
    parse_log_line line ts w
    = (None, set_total_lines_processed (S (_total_lines_processed w)) w).
Proof.
  intros line ts w Hb. unfold parse_log_line.
  now rewrite truthy_strip, Hb.
Qed.

Lemma parse_log_line_blank_witness :
  parse_log_line ("  " ++ Sample.newline) "t1" Sample.watcher
  = (None, set_total_lines_processed 1 Sample.watcher).
Proof.
  apply (parse_log_line_blank ("  " ++ Sample.newline) "t1" Sample.watcher).
  reflexivity.
Defined.

(** X2. A line in which the text [pool=] followed by a double quote does
    not occur gives no record, whatever else it holds, and is not counted
    in [_lines_with_pool]. *)
Theorem parse_log_line_without_pool :
  forall (line ts : string) (w : LogWatcher),
    occurs (Re.quote_after "pool=") line = false ->
    fst (parse_log_line line ts w) = None /\
    _lines_with_pool (snd (parse_log_line line ts w)) = _lines_with_pool w.
Proof.
  intros line ts w Ho.
  assert (Re.search Re.pool_pattern line = None) as Hs.
  { apply (search_without_literal (Re.quote_after "pool=")); [|exact Ho].
    intros t Ht. unfold Re.pool_pattern, Re.match_quoted. now rewrite Ht. }
  unfold parse_log_line. rewrite Hs.
  destruct (PyStr.truthy (PyStr.strip line)); split; reflexivity.
Qed.

Lemma parse_log_line_without_pool_witness :
  fst (parse_log_line
         ("GET / upstream_status=502 request_time=0.5" ++ Sample.newline)
         "t1" Sample.watcher) = None /\
  _lines_with_pool
    (snd (parse_log_line
            ("GET / upstream_status=502 request_time=0.5" ++ Sample.newline)
            "t1" Sample.watcher))
  = _lines_with_pool Sample.watcher.
Proof.
  apply (parse_log_line_without_pool
           ("GET / upstream_status=502 request_time=0.5" ++ Sample.newline)
           "t1" Sample.watcher).
  vm_compute. reflexivity.
Defined.

(** X3. The fields of a record come from the line. The pool is a text
    without double quote that stands in the line between [pool=] with a
    double quote and a double quote; the status, when there is one, is a
    non-empty text of digits and dashes that stands in the line after
    [upstream_status=] and is not followed by a digit or dash; the
    timestamp is the reading of the clock and [raw_line] the stripped
    line. *)
Theorem parse_log_line_sound :
  forall (line ts : string) (w : LogWatcher) (ld : LogData),
    fst (parse_log_line line ts w) = Some ld ->
    (exists a b : string,
        line = a ++ Re.quote_after "pool=" ++ pool ld
                 ++ String PyStr.dquote b) /\
    all_in (fun c => negb (Ascii.eqb c PyStr.dquote)) (pool ld) = true /\
    (forall s : string,
        upstream_status ld = Some s ->
        s <> "" /\ all_in Re.digit_or_dash s = true /\
        exists a b : string,
          line = a ++ "upstream_status=" ++ s ++ b /\
          starts_in Re.digit_or_dash b = false) /\
    timestamp ld = ts /\ raw_line ld = PyStr.strip line.
Proof.
  intros line ts w ld. unfold parse_log_line.
  destruct (PyStr.truthy (PyStr.strip line)); cbn [negb]; [|discriminate].
  destruct (Re.search Re.pool_pattern line) as [p|] eqn:Hp; [|discriminate].
  assert (forall seconds : float,
             Some {| pool := p;
                     release := default "unknown"
                                  (Re.search Re.release_pattern line);
                     upstream_status :=
                       Re.search Re.upstream_status_pattern line;
                     upstream_addr := Re.search Re.upstream_addr_pattern line;
                     request_time := seconds; timestamp := ts;
                     raw_line := PyStr.strip line |} = Some ld ->
             (exists a b : string,
                 line = a ++ Re.quote_after "pool=" ++ pool ld
                          ++ String PyStr.dquote b) /\
             all_in (fun c => negb (Ascii.eqb c PyStr.dquote)) (pool ld)
               = true /\
             (forall s : string,
                 upstream_status ld = Some s ->
                 s <> "" /\ all_in Re.digit_or_dash s = true /\
                 exists a b : string,
                   line = a ++ "upstream_status=" ++ s ++ b /\
                   starts_in Re.digit_or_dash b = false) /\
             timestamp ld = ts /\ raw_line ld = PyStr.strip line) as Hrec.
  { intros seconds [= <-]. cbn [pool upstream_status timestamp raw_line].
    apply search_sound in Hp as (a & t & -> & Ht).
    apply match_quoted_sound in Ht as (b & -> & Hg).
    split; [exists a, b; reflexivity|]. split; [exact Hg|].
    split; [|auto].
    intros s Hs. apply search_sound in Hs as (a' & t' & Hl & Ht').
    apply match_plus_sound in Ht' as (b' & -> & Hne & Hall & Hb').
    repeat split; auto. exists a', b'. auto. }
  destruct (Re.search Re.request_time_pattern line) as [g|].
  - destruct (PyFloat.of_decimal g); cbn [fst]; [apply Hrec | discriminate].
  - cbn [fst]. apply Hrec.
Qed.

Lemma parse_log_line_sound_witness :
  (exists a b : string,
      Sample.line_green_502
      = a ++ Re.quote_after "pool=" ++ "green" ++ String PyStr.dquote b) /\
  all_in (fun c => negb (Ascii.eqb c PyStr.dquote)) "green" = true.
Proof.
  destruct (parse_log_line_sound Sample.line_green_502 "t1" Sample.watcher
              {| pool := "green"; release := "v2";
                 upstream_status := Some "502";
                 upstream_addr := Some "10.0.0.2:80";
                 request_time := 0.25%float; timestamp := "t1";
                 raw_line := PyStr.strip Sample.line_green_502 |})
    as (H1 & H2 & _); [vm_compute; reflexivity|].
  split; [exact H1 | exact H2].
Defined.

Lemma all_in_app (cls : ascii -> bool) (a b : string) :
  all_in cls (a ++ b) = all_in cls a && all_in cls b.
Proof.
  induction a as [|x a IH]; [reflexivity|].
  rewrite string_app_cons. cbn. now rewrite IH, andb_assoc.
Qed.

Lemma count_char_app (c : ascii) (a b : string) :
  count_char c (a ++ b) = (count_char c a + count_char c b)%nat.
Proof.
  induction a as [|x a IH]; [reflexivity|].
  rewrite string_app_cons. cbn. rewrite IH. lia.
Qed.

Lemma isdecimal_not_dot (c : ascii) :
  PyStr.isdecimal c = true -> Ascii.eqb c "."%char = false.
Proof.
  destruct (Ascii.eqb_spec c "."%char) as [->|]; [discriminate | reflexivity].
Qed.

Lemma digits_no_dot (s : string) :
  all_in PyStr.isdecimal s = true -> count_char "."%char s = 0%nat.
Proof.
  induction s as [|c s IH]; cbn; [reflexivity|].
  intros [Hc Hs]%andb_true_iff.
  now rewrite (isdecimal_not_dot c Hc), (IH Hs).
Qed.

Lemma digits_some_digit (s : string) :
  all_in PyStr.isdecimal s = true ->
  all_in (fun c => negb (PyStr.isdecimal c)) s = true -> s = "".
Proof.
  destruct s as [|c s]; [reflexivity|]. cbn.
  intros [Hc _]%andb_true_iff. now rewrite Hc.
Qed.

(** [float] on a text of digits and dots raises exactly when the text has
    two or more dots, or no digit. *)
Lemma of_decimal_none (g : string) :
  all_in Re.digit_or_dot g = true ->
  PyFloat.of_decimal g = None <->
  (2 <= count_char "."%char g)%nat \/
  all_in (fun c => negb (PyStr.isdecimal c)) g = true.
Proof.
  intros Hall. unfold PyFloat.of_decimal.
  destruct (Re.span PyStr.isdecimal g) as [ip r] eqn:Hs.
  destruct (span_spec _ _ _ _ Hs) as (-> & Hip & Hr).
  rewrite all_in_app in Hall. apply andb_true_iff in Hall as [_ Hall].
  rewrite count_char_app, (digits_no_dot ip Hip), all_in_app.
  destruct r as [|c fs].
  - cbn. rewrite andb_true_r. destruct ip as [|d ip].
    + split; auto.
    + split; [discriminate|]. intros [H|H]; [lia|].
      now apply (digits_some_digit _ Hip) in H.
  - cbn [starts_in] in Hr. cbn [all_in] in Hall.
    apply andb_true_iff in Hall as [Hc Hfs].
    unfold Re.digit_or_dot in Hc. rewrite Hr in Hc. cbn [orb] in Hc.
    rewrite Hc.
    destruct (Re.span PyStr.isdecimal fs) as [fp r'] eqn:Hs'.
    destruct (span_spec _ _ _ _ Hs') as (-> & Hfp & Hr').
    rewrite all_in_app in Hfs. apply andb_true_iff in Hfs as [_ Hr'all].
    cbn [count_char all_in]. rewrite Hc, Hr. cbn [negb andb].
    rewrite count_char_app, (digits_no_dot fp Hfp), all_in_app.
    destruct r' as [|c' r'].
    + cbn. rewrite andb_true_r.
      destruct (ip ++ fp) as [|x y] eqn:Happ.
      * destruct ip; [|discriminate].
        change ("" ++ fp) with fp in Happ. subst fp. split; auto.
      * split; [discriminate|]. intros [H|H]; [lia|].
        apply andb_true_iff in H as [H1 H2].
        apply (digits_some_digit _ Hip) in H1.
        apply (digits_some_digit _ Hfp) in H2. subst. discriminate.
    + cbn [starts_in] in Hr'. cbn [all_in] in Hr'all.
      apply andb_true_iff in Hr'all as [Hc' _].
      unfold Re.digit_or_dot in Hc'. rewrite Hr' in Hc'. cbn [orb] in Hc'.
      cbn [count_char]. rewrite Hc'.
      split; [intros _; left; lia|].
      intros _. now destruct (ip ++ fp).
Qed.

(** X4. Take a line that is not blank, has a pool token, and in which the
    request-time pattern captures the text [g]. The parser gives no record
    exactly when [g] has two or more dots, or no digit; and it counts the
    line in [_lines_with_pool] also then. *)
Theorem parse_log_line_request_time :
  forall (line ts p g : string) (w : LogWatcher),
    all_space line = false ->
    Re.search Re.pool_pattern line = Some p ->
    Re.search Re.request_time_pattern line = Some g ->
    (fst (parse_log_line line ts w) = None <->
     (2 <= count_char "."%char g)%nat \/
     all_in (fun c => negb (PyStr.isdecimal c)) g = true) /\
    _lines_with_pool (snd (parse_log_line line ts w))
      = S (_lines_with_pool w).
Proof.
  intros line ts p g w Hb Hp Hg.
  assert (all_in Re.digit_or_dot g = true) as Hall.
  { apply search_sound in Hg as (a & t & _ & Ht).
    now apply match_plus_sound in Ht as (b & _ & _ & Hall & _). }
  rewrite <- (of_decimal_none g Hall).
  unfold parse_log_line. rewrite truthy_strip, Hb, Hp, Hg. cbn [negb].
  destruct (PyFloat.of_decimal g); cbn [fst snd]; split;
    try reflexivity; split; congruence.
Qed.

Lemma parse_log_line_request_time_witness :
  fst (parse_log_line Sample.line_two_dots "t1" Sample.watcher) = None <->
  (2 <= count_char "."%char "1.2.3")%nat \/
  all_in (fun c => negb (PyStr.isdecimal c)) "1.2.3" = true.
Proof.
  apply (parse_log_line_request_time Sample.line_two_dots "t1" "blue" "1.2.3"
           Sample.watcher); vm_compute; reflexivity.
Defined.

(** ** More on check_failover *)

(** X5. Records whose pool is empty or ['unknown'] are transparent to the
    failover detector: a sequence of records raises the same alerts and
    leaves the same watcher as the sequence without them. *)
Theorem feed_failover_accepted :
  forall (records : list LogData) (w : LogWatcher),
    feed_failover records w = feed_failover (accepted records) w.
Proof.
  induction records as [|r records IH]; intros w; [reflexivity|].
  cbn [feed_failover accepted].
  destruct (ignored_pool (pool r)) eqn:Hg.
  - rewrite (check_failover_ignored r w) by now apply ignored_pool_true.
    rewrite IH. now destruct (feed_failover (accepted records) w).
  - cbn [feed_failover]. destruct (check_failover r w) as [a w1].
    now rewrite IH.
Qed.

Lemma last_pool_known_ok (w : LogWatcher) : last_pool_known w -> last_pool_ok w.
Proof. intros H Hl. now specialize (H "" Hl). Qed.

Lemma check_failover_known (ld : LogData) (w : LogWatcher) :
  last_pool_known w ->
  last_pool_known (snd (check_failover ld w)) /\
  forall a : Alert,
    fst (check_failover ld w) = Some a ->
    exists p : string,
      a = failover_event p (pool ld) (timestamp ld) /\ p <> pool ld /\
      ignored_pool p = false /\ ignored_pool (pool ld) = false.
Proof.
  intros Hk.
  destruct (check_failover_cases ld w (last_pool_known_ok w Hk))
    as [[Hg He] | (Hg & Hs & [(p & Hl & Hne & He) | (Hl & He)])].
  - rewrite He. split; [exact Hk | discriminate].
  - split.
    + intros q Hq. rewrite Hs in Hq. now injection Hq as <-.
    + rewrite He. intros a [= <-]. exists p. auto.
  - split.
    + intros q Hq. rewrite Hs in Hq. now injection Hq as <-.
    + rewrite He. discriminate.
Qed.

(** X6. From a watcher whose stored pool, if any, is neither empty nor
    ['unknown'] (as [__init__] leaves it), every alert the failover
    detector raises over a sequence of records goes from one pool to a
    different pool, neither of them empty or ['unknown']; and the stored
    pool stays that way. *)
Theorem feed_failover_alerts_known :
  forall (records : list LogData) (w : LogWatcher),
    last_pool_known w ->
    Forall (fun a : Alert =>
              exists p q t : string,
                a = failover_event p q t /\ p <> q /\
                ignored_pool p = false /\ ignored_pool q = false)
           (fst (feed_failover records w)) /\
    last_pool_known (snd (feed_failover records w)).
Proof.
  induction records as [|r records IH]; intros w Hk.
  - split; [constructor | exact Hk].
  - cbn [feed_failover].
    destruct (check_failover_known r w Hk) as [Hk1 Ha].
    destruct (check_failover r w) as [a w1]. cbn [fst snd] in *.
    destruct (IH w1 Hk1) as [Hall Hk2].
    destruct (feed_failover records w1) as [alerts w2]. cbn [fst snd] in *.
    split; [|exact Hk2].
    destruct a as [a|]; [|exact Hall].
    constructor; [|exact Hall].
    destruct (Ha a eq_refl) as (p & -> & Hne & Hp & Hq).
    exists p, (pool r), (timestamp r). auto.
Qed.

Lemma feed_failover_alerts_known_witness :
  Forall (fun a : Alert =>
            exists p q t : string,
              a = failover_event p q t /\ p <> q /\
              ignored_pool p = false /\ ignored_pool q = false)
         (fst (feed_failover
                 [Sample.record "blue" None "t1";
                  Sample.record "unknown" None "t2";
                  Sample.record "green" None "t3"] Sample.watcher)).
Proof.
  apply (feed_failover_alerts_known
           [Sample.record "blue" None "t1";
            Sample.record "unknown" None "t2";
            Sample.record "green" None "t3"] Sample.watcher).
  intros p Hp. vm_compute in Hp. discriminate.
Defined.

Lemma feed_failover_app (xs ys : list LogData) (w : LogWatcher) :
  feed_failover (xs ++ ys) w =
    let (a1, w1) := feed_failover xs w in
    let (a2, w2) := feed_failover ys w1 in
    ((a1 ++ a2)%list, w2).
Proof.
  revert w. induction xs as [|x xs IH]; intros w.
  - cbn. now destruct (feed_failover ys w).
  - cbn [app feed_failover]. destruct (check_failover x w) as [a w1].
    rewrite IH. destruct (feed_failover xs w1) as [a1 w2].
    destruct (feed_failover ys w2) as [a2 w3]. now destruct a.
Qed.

Lemma feed_failover_none_accepted (records : list LogData) (w : LogWatcher) :
  accepted records = [] -> feed_failover records w = ([], w).
Proof.
  revert w. induction records as [|r records IH]; intros w; [reflexivity|].
  cbn [accepted feed_failover].
  destruct (ignored_pool (pool r)) eqn:Hg; [|discriminate].
  intros Ha. rewrite (check_failover_ignored r w) by now apply ignored_pool_true.
  now rewrite (IH w Ha).
Qed.

(** X7. After a sequence of records, the stored pool is the pool of the
    last record whose pool is neither empty nor ['unknown']. *)
Theorem feed_failover_last_pool :
  forall (before after : list LogData) (r : LogData) (w : LogWatcher),
    ignored_pool (pool r) = false ->
    accepted after = [] ->
    last_pool (snd (feed_failover (before ++ r :: after) w))
    = Some (pool r).
Proof.
  intros before after r w Hr Hafter.
  rewrite feed_failover_app.
  destruct (feed_failover before w) as [a1 w1].
  cbn [feed_failover].
  assert (last_pool (snd (check_failover r w1)) = Some (pool r)) as H.
  { unfold check_failover. fold (ignored_pool (pool r)). rewrite Hr.
    split_matches; reflexivity. }
  destruct (check_failover r w1) as [a w2].
  rewrite (feed_failover_none_accepted after w2 Hafter). exact H.
Qed.

Lemma feed_failover_last_pool_witness :
  last_pool
    (snd (feed_failover
            ([Sample.record "blue" None "t1"]
             ++ Sample.record "green" None "t2"
                :: [Sample.record "unknown" None "t3";
                    Sample.record "" None "t4"]) Sample.watcher))
  = Some "green".
Proof.
  apply (feed_failover_last_pool [Sample.record "blue" None "t1"]
           [Sample.record "unknown" None "t3"; Sample.record "" None "t4"]
           (Sample.record "green" None "t2") Sample.watcher); reflexivity.
Defined.


(** ** More on check_error_rate *)

Lemma check_error_rate_window (ld : LogData) (w : LogWatcher) :
  window_ok w ->
  error_window (snd (check_error_rate ld w))
    = lastn (window_size w) (error_window w ++ samples [ld])%list /\
  window_ok (snd (check_error_rate ld w)).
Proof.
  intros Hok. unfold window_ok in *.
  destruct (check_error_rate_frame ld w) as (Hs & _).
  apply settings_eq in Hs as (_ & _ & Hz & _). rewrite Hz.
  assert (error_window (snd (check_error_rate ld w))
          = lastn (window_size w) (error_window w ++ samples [ld])%list)
    as Hw.
  { unfold check_error_rate. cbn [samples].
    destruct (upstream_status ld) as [s|];
      [|cbn [snd]; now rewrite app_nil_r, lastn_all].
    destruct (PyStr.truthy s); cbn [negb];
      [|cbn [snd]; now rewrite app_nil_r, lastn_all].
    rewrite <- deque_append_lastn by exact Hok.
    split_matches; reflexivity. }
  split; [exact Hw|]. rewrite Hw, lastn_length. lia.
Qed.

Lemma samples_app (xs ys : list LogData) :
  samples (xs ++ ys) = (samples xs ++ samples ys)%list.
Proof.
  induction xs as [|x xs IH]; [reflexivity|]. cbn [app samples].
  destruct (upstream_status x) as [s|]; [|exact IH].
  destruct (PyStr.truthy s); [|exact IH]. cbn. now rewrite IH.
Qed.

(** X8. The window is a first-in first-out buffer of [window_size]
    samples: after any sequence of records it holds the last
    [window_size] samples of what it held followed by the samples of the
    records, oldest first, and it is never longer than [window_size]. *)
Theorem feed_error_rate_window :
  forall (records : list LogData) (w : LogWatcher),
    window_ok w ->
    error_window (snd (feed_error_rate records w))
      = lastn (window_size w) (error_window w ++ samples records)%list /\
    window_ok (snd (feed_error_rate records w)).
Proof.
  induction records as [|r records IH]; intros w Hok.
  - cbn [feed_error_rate snd samples]. rewrite app_nil_r.
    split; [now rewrite lastn_all | exact Hok].
  - cbn [feed_error_rate].
    destruct (check_error_rate_window r w Hok) as [Hw Hok1].
    destruct (check_error_rate_frame r w) as (Hs & _).
    apply settings_eq in Hs as (_ & _ & Hz & _).
    destruct (check_error_rate r w) as [a w1]. cbn [snd] in *.
    destruct (IH w1 Hok1) as [Hw2 Hok2].
    destruct (feed_error_rate records w1) as [outcomes w2]. cbn [snd] in *.
    split; [|exact Hok2].
    rewrite Hw2, Hw, Hz, lastn_app, <- app_assoc.
    now rewrite <- samples_app.
Qed.

Lemma feed_error_rate_window_witness :
  error_window
    (snd (feed_error_rate
            [Sample.record "blue" (Some "200") "t1";
             Sample.record "blue" (Some "502") "t2";
             Sample.record "blue" None "t3";
             Sample.record "blue" (Some "-") "t4"] Sample.busy_watcher))
  = lastn 5 ([false; false; false; true] ++ [false; true; false])%list.
Proof.
  apply (feed_error_rate_window
           [Sample.record "blue" (Some "200") "t1";
            Sample.record "blue" (Some "502") "t2";
            Sample.record "blue" None "t3";
            Sample.record "blue" (Some "-") "t4"] Sample.busy_watcher).
  unfold window_ok. vm_compute. lia.
Defined.

Lemma sum_le_length (d : list bool) : (sum d <= length d)%nat.
Proof. induction d as [|[] d IH]; cbn; lia. Qed.

(** The alert of one call. *)
Lemma check_error_rate_alert_shape (ld : LogData) (w : LogWatcher) (a : Alert) :
  window_ok w ->
  fst (check_error_rate ld w) = Returns (Some a) ->
  exists rate : float,
    a = error_alert rate (error_threshold w) (window_size w)
          (sum (error_window (snd (check_error_rate ld w))))
          (timestamp ld) /\
    length (error_window (snd (check_error_rate ld w))) = window_size w /\
    (0 < window_size w)%nat /\
    (sum (error_window (snd (check_error_rate ld w))) <= window_size w)%nat.
Proof.
  intros Hok.
  destruct (check_error_rate_window ld w Hok) as [_ Hok1].
  revert Hok1. unfold window_ok, check_error_rate.
  destruct (upstream_status ld) as [s|]; [|discriminate].
  destruct (PyStr.truthy s); cbn [negb]; [|discriminate].
  cbn [error_window set_error_window window_size error_threshold].
  set (win := deque_append (window_size w) (error_window w) _).
  destruct (Nat.ltb_spec (length win) (window_size w)) as [Hlt|Hge];
    [discriminate|].
  destruct (PyFloat.truediv (sum win) (length win)) as [ratio|] eqn:Hd;
    [|discriminate].
  destruct (PrimFloat.ltb _ _); [|discriminate].
  cbn [fst snd error_window set_error_window window_size].
  intros Hle [= <-].
  assert (length win = window_size w) as Hlen by lia.
  exists (PyFloat.round2 (PrimFloat.mul ratio 100%float)).
  rewrite Hlen. repeat split.
  - destruct (length win) eqn:Hn; [discriminate | lia].
  - rewrite <- Hlen. apply sum_le_length.
Qed.

(** X9. An alert of [check_error_rate] reports a full window: from a
    watcher whose window is within its length, the alert carries the
    threshold of the watcher, its window size, which is positive and is
    the number of samples in the window, the number of errors among these
    samples, and the timestamp of the record. So every alert raised over
    a sequence of records carries the threshold and the window size of the
    watcher and an error count that is at most the window size. *)
Theorem check_error_rate_alert_fields :
  forall (records : list LogData) (ld : LogData) (w : LogWatcher) (a : Alert),
    window_ok w ->
    (fst (check_error_rate ld w) = Returns (Some a) ->
     exists rate : float,
       a = error_alert rate (error_threshold w) (window_size w)
             (sum (error_window (snd (check_error_rate ld w))))
             (timestamp ld) /\
       length (error_window (snd (check_error_rate ld w))) = window_size w /\
       (0 < window_size w)%nat /\
       (sum (error_window (snd (check_error_rate ld w)))
        <= window_size w)%nat) /\
    Forall (fun outcome : result (option Alert) =>
              forall raised : Alert,
                outcome = Returns (Some raised) ->
                exists (rate : float) (count : nat) (time : string),
                  raised = error_alert rate (error_threshold w)
                             (window_size w) count time /\
                  (count <= window_size w)%nat)
           (fst (feed_error_rate records w)).
Proof.
  intros records ld w a Hok. split.
  - now apply check_error_rate_alert_shape.
  - clear ld a. revert w Hok.
    induction records as [|r records IH]; intros w Hok; [constructor|].
    cbn [feed_error_rate].
    pose proof (check_error_rate_alert_shape r w) as Hshape.
    destruct (check_error_rate_window r w Hok) as [_ Hok1].
    destruct (check_error_rate_frame r w) as (Hs & _).
    apply settings_eq in Hs as (_ & Ht & Hz & _).
    destruct (check_error_rate r w) as [o w1]. cbn [fst snd] in *.
    specialize (IH w1 Hok1). rewrite Ht, Hz in IH.
    destruct (feed_error_rate records w1) as [outcomes w2]. cbn [fst] in *.
    constructor; [|exact IH].
    intros raised ->.
    destruct (Hshape raised Hok eq_refl) as (rate & -> & _ & _ & Hle).
    eauto.
Qed.

Lemma check_error_rate_alert_fields_witness :
  exists rate : float,
    error_alert 40%float 20%float 5 2 "t1"
    = error_alert rate (error_threshold Sample.busy_watcher)
        (window_size Sample.busy_watcher)
        (sum (error_window
                (snd (check_error_rate (Sample.record "blue" (Some "500") "t1")
                        Sample.busy_watcher))))
        "t1".
Proof.
  destruct (check_error_rate_alert_fields []
              (Sample.record "blue" (Some "500") "t1") Sample.busy_watcher
              (error_alert 40%float 20%float 5 2 "t1"))
    as [H _].
  - unfold window_ok. vm_compute. lia.
  - destruct H as (rate & H & _); [vm_compute; reflexivity|].
    exists rate. exact H.
Defined.

(** When one call raises. *)
Lemma check_error_rate_raises_zero (ld : LogData) (w : LogWatcher) :
  window_ok w ->
  (fst (check_error_rate ld w) = Raises ZeroDivisionError <->
   window_size w = 0%nat /\ PyStr.truthy_opt (upstream_status ld) = true).
Proof.
  intros Hok.
  destruct (check_error_rate_window ld w Hok) as [_ Hok1].
  revert Hok1. unfold window_ok in *. unfold check_error_rate.
  destruct (upstream_status ld) as [s|]; cbn [PyStr.truthy_opt];
    [|intros _; split; [discriminate | intros [_ [=]]]].
  destruct (PyStr.truthy s); cbn [negb];
    [|intros _; split; [discriminate | intros [_ [=]]]].
  cbn [error_window set_error_window window_size error_threshold].
  set (x := PyStr.startswith s "5"%char).
  set (win := deque_append (window_size w) (error_window w) x).
  assert ((0 < length win)%nat \/ window_size w = 0%nat) as Hwin.
  { subst win. unfold deque_append.
    destruct (Nat.ltb_spec (window_size w) (length (error_window w ++ [x])))
      as [Hlt|Hge].
    - destruct (error_window w) as [|b d]; cbn in *; [right; lia | left].
      rewrite length_app. cbn. lia.
    - left. rewrite length_app. cbn. lia. }
  destruct (Nat.ltb_spec (length win) (window_size w)) as [Hlt|Hge].
  - intros _. split; [discriminate | intros [Hz _]; lia].
  - unfold PyFloat.truediv. destruct (length win) eqn:Hn.
    + cbn [fst snd error_window set_error_window].
      intros _. split; [intros _; split; [lia | reflexivity] | reflexivity].
    + destruct (PrimFloat.ltb _ _);
        cbn [fst snd error_window set_error_window window_size];
        intros Hle; (split; [discriminate | intros [Hz _]]);
        destruct Hwin as [H|H]; lia.
Qed.

(** The only exception of [check_error_rate] is that of the division. *)
Lemma check_error_rate_raises_division (ld : LogData) (w : LogWatcher)
    (e : exception) :
  fst (check_error_rate ld w) = Raises e -> e = ZeroDivisionError.
Proof.
  unfold check_error_rate. split_matches; cbn [fst]; congruence.
Qed.

Lemma check_error_rate_raises_iff (ld : LogData) (w : LogWatcher)
    (e : exception) :
  window_ok w ->
  (fst (check_error_rate ld w) = Raises e <->
   e = ZeroDivisionError /\ window_size w = 0%nat /\
   PyStr.truthy_opt (upstream_status ld) = true).
Proof.
  intros Hok. split.
  - intros H. pose proof (check_error_rate_raises_division ld w e H). subst e.
    split; [reflexivity|]. now apply check_error_rate_raises_zero.
  - intros (-> & H). now apply check_error_rate_raises_zero.
Qed.

(** X10. [check_error_rate] raises exactly when the window size is 0
    and the record has a non-empty status, and what it raises then is the
    [ZeroDivisionError] of the division of the error count by the length
    of the empty window. With a positive window size no call over any
    sequence of records raises. *)
Theorem check_error_rate_raises :
  forall (records : list LogData) (ld : LogData) (w : LogWatcher)
         (e : exception),
    window_ok w ->
    (fst (check_error_rate ld w) = Raises e <->
     e = ZeroDivisionError /\ window_size w = 0%nat /\
     PyStr.truthy_opt (upstream_status ld) = true) /\
    ((0 < window_size w)%nat ->
     Forall (fun outcome : result (option Alert) => outcome <> Raises e)
            (fst (feed_error_rate records w))).
Proof.
  intros records ld w e Hok. split.
  - now apply check_error_rate_raises_iff.
  - intros Hpos. clear ld. revert w Hok Hpos.
    induction records as [|r records IH]; intros w Hok Hpos; [constructor|].
    cbn [feed_error_rate].
    pose proof (check_error_rate_raises_iff r w e Hok) as Hr.
    destruct (check_error_rate_window r w Hok) as [_ Hok1].
    destruct (check_error_rate_frame r w) as (Hs & _).
    apply settings_eq in Hs as (_ & _ & Hz & _).
    destruct (check_error_rate r w) as [o w1]. cbn [fst snd] in *.
    specialize (IH w1 Hok1). rewrite Hz in IH. specialize (IH Hpos).
    destruct (feed_error_rate records w1) as [outcomes w2]. cbn [fst] in *.
    constructor; [|exact IH].
    intros Ho. apply Hr in Ho as (_ & H0 & _). lia.
Qed.

Lemma check_error_rate_raises_witness :
  fst (check_error_rate (Sample.record "blue" (Some "200") "t1")
         (init None 2%float 0 300 false 1762214400%float))
  = Raises ZeroDivisionError.
Proof.
  destruct (check_error_rate_raises []
              (Sample.record "blue" (Some "200") "t1")
              (init None 2%float 0 300 false 1762214400%float)
              ZeroDivisionError) as [H _].
  - unfold window_ok. vm_compute. lia.
  - apply H. repeat split.
Defined.


(** ** More on the gate *)

(** X11. [send_slack_alert] posts at most one message, the message of
    the alert, and posts it exactly when a webhook is set, maintenance
    mode is off, [requests] is there and the kind is out of cooldown. The
    time of the last alert of the kind is set to the reading of the clock
    exactly when the message is posted, whether or not the delivery
    succeeds; otherwise the watcher is left as it was. The call returns
    [True] exactly when it posted and the reply has status 200. *)
Theorem send_slack_alert_posts :
  forall (REQUESTS_AVAILABLE : bool) (alert_data : Alert) (now : float)
         (reply : PostOutcome) (w : LogWatcher),
    let call := send_slack_alert REQUESTS_AVAILABLE alert_data now reply w in
    (snd call = [] \/ snd call = [build_message alert_data w]) /\
    (snd call <> [] <->
     can_post REQUESTS_AVAILABLE w = true /\
     in_cooldown (alert_type alert_data) now w = false) /\
    (snd call <> [] ->
     snd (fst call)
     = set_last_alert_time
         (<[alert_type alert_data := now]> (last_alert_time w)) w) /\
    (snd call = [] -> snd (fst call) = w) /\
    (fst (fst call) = Returns true <-> snd call <> [] /\ reply = Response 200).
Proof.
  intros RA a now reply w. cbv zeta. rewrite send_slack_alert_unfold.
  destruct (can_post RA w);
    [destruct (in_cooldown (alert_type a) now w)|]; cbn [fst snd].
  - split; [auto|]. split; [split; [congruence | intros [_ H]; discriminate]|].
    split; [congruence|]. split; [reflexivity|].
    split; [|intros [H _]; congruence].
    destruct (PyFloat.of_int (cooldown_sec w)); discriminate.
  - split; [auto|]. split; [split; [auto | discriminate]|].
    split; [reflexivity|]. split; [discriminate|].
    split.
    + destruct reply as [code|]; [|discriminate].
      intros [= H]. apply Z.eqb_eq in H as ->.
      split; [discriminate | reflexivity].
    + intros [_ ->]. reflexivity.
  - split; [auto|]. split; [split; [congruence | intros [H _]; discriminate]|].
    split; [congruence|]. split; [reflexivity|].
    split; [discriminate | intros [H _]; congruence].
Qed.

(** X12. The cooldowns of the two kinds are apart: whatever
    [send_slack_alert] does for an alert of one kind, an alert of another
    kind is in cooldown after the call exactly when it was before. *)
Theorem send_slack_alert_other_kind :
  forall (REQUESTS_AVAILABLE : bool) (alert_data : Alert) (now later : float)
         (reply : PostOutcome) (other : string) (w : LogWatcher),
    alert_type alert_data <> other ->
    in_cooldown other later
      (snd (fst (send_slack_alert REQUESTS_AVAILABLE alert_data now reply w)))
    = in_cooldown other later w.
Proof.
  intros RA a now later reply other w Hne.
  rewrite send_slack_alert_unfold.
  destruct (can_post RA w);
    [destruct (in_cooldown (alert_type a) now w)|]; cbn [fst snd];
    [reflexivity | | reflexivity].
  unfold in_cooldown. now rewrite last_time_other.
Qed.

Lemma send_slack_alert_other_kind_witness :
  in_cooldown "high_error_rate" 1762214402%float
    (snd (fst (send_slack_alert true (failover_event "blue" "green" "t1")
                 1762214401%float (Response 200) Sample.watcher)))
  = in_cooldown "high_error_rate" 1762214402%float Sample.watcher.
Proof.
  apply (send_slack_alert_other_kind true (failover_event "blue" "green" "t1")
           1762214401%float 1762214402%float (Response 200)
           "high_error_rate" Sample.watcher).
  discriminate.
Defined.


(** ** Invariants of the loop *)

Lemma set_last_alert_time_kinds (a : Alert) (now : float) (w : LogWatcher) :
  alert_kinds_only w ->
  alert_kinds_only
    (set_last_alert_time (<[alert_type a := now]> (last_alert_time w)) w).
Proof.
  intros Hw other. cbn [last_alert_time set_last_alert_time].
  destruct (decide (alert_type a = other)) as [<-|Hne].
  - intros _. destruct a; auto.
  - rewrite lookup_insert_ne by exact Hne. apply Hw.
Qed.

Lemma window_ok_same (w v : LogWatcher) :
  settings v = settings w -> detector_state v = detector_state w ->
  window_ok w -> window_ok v.
Proof.
  intros Hs Hd. apply settings_eq in Hs as (_ & _ & Hz & _).
  apply detector_state_eq in Hd as (_ & _ & He).
  unfold window_ok. now rewrite Hz, He.
Qed.

Lemma last_pool_known_same (w v : LogWatcher) :
  last_pool v = last_pool w -> last_pool_known w -> last_pool_known v.
Proof. unfold last_pool_known. now intros ->. Qed.

Lemma alert_kinds_only_same (w v : LogWatcher) :
  last_alert_time v = last_alert_time w ->
  alert_kinds_only w -> alert_kinds_only v.
Proof. unfold alert_kinds_only. now intros ->. Qed.

(** X13. Three facts hold of the watcher as [__init__] builds it and are
    kept by the loop over any lines, whatever the clock and the webhook
    do: the window is no longer than [window_size]; the stored pool, if
    any, is neither empty nor ['unknown']; and [last_alert_time] has no
    key other than ['failover'] and ['high_error_rate']. *)
Theorem watch_logs_loop_invariants :
  forall (REQUESTS_AVAILABLE : bool) (input : list (string * Readings))
         (w : LogWatcher),
    window_ok w -> last_pool_known w -> alert_kinds_only w ->
    window_ok (snd (fst (watch_logs_loop REQUESTS_AVAILABLE input w))) /\
    last_pool_known (snd (fst (watch_logs_loop REQUESTS_AVAILABLE input w))) /\
    alert_kinds_only (snd (fst (watch_logs_loop REQUESTS_AVAILABLE input w))).
Proof.
  intros RA input w H1 H2 H3.
  apply (watch_logs_loop_keeps RA
           (fun w => window_ok w /\ last_pool_known w /\ alert_kinds_only w));
    [| | | | | auto]; clear; intros.
  - destruct H as (H1 & H2 & H3).
    destruct (parse_log_line_frame line ts w) as (Hs & Hd & Ha).
    split; [now apply (window_ok_same w)|].
    split; [|now apply (alert_kinds_only_same w)].
    apply detector_state_eq in Hd as (Hl & _).
    now apply (last_pool_known_same w).
  - destruct H as (H1 & H2 & H3).
    destruct (check_failover_frame ld w) as (Hs & He & Ha & _).
    split; [|split].
    + apply settings_eq in Hs as (_ & _ & Hz & _).
      unfold window_ok. now rewrite Hz, He.
    + now apply check_failover_known.
    + now apply (alert_kinds_only_same w).
  - destruct H as (H1 & H2 & H3).
    destruct (check_error_rate_frame ld w) as (_ & Hl & _ & Ha).
    split; [now apply check_error_rate_window|].
    split; [now apply (last_pool_known_same w)|].
    now apply (alert_kinds_only_same w).
  - destruct H as (H1 & H2 & H3).
    split; [exact H1|]. split; [exact H2|].
    now apply set_last_alert_time_kinds.
  - destruct H as (H1 & H2 & H3).
    destruct (status_report_frame current_time w) as (Hs & Hd & Ha).
    split; [now apply (window_ok_same w)|].
    split; [|now apply (alert_kinds_only_same w)].
    apply detector_state_eq in Hd as (Hl & _).
    now apply (last_pool_known_same w).
Qed.

Lemma init_invariants (webhook : option string) (threshold : float)
    (size : nat) (cooldown : Z) (maintenance : bool) (start : float) :
  window_ok (init webhook threshold size cooldown maintenance start) /\
  last_pool_known (init webhook threshold size cooldown maintenance start) /\
  alert_kinds_only (init webhook threshold size cooldown maintenance start).
Proof.
  split; [|split].
  - unfold window_ok. cbn. lia.
  - intros p Hp. discriminate.
  - intros kind [t Ht]. cbn in Ht. now rewrite lookup_empty in Ht.
Qed.

Lemma watch_logs_loop_invariants_witness :
  window_ok
    (snd (fst (watch_logs_loop true
                 [(Sample.line_green_502, Sample.readings);
                  (Sample.line_dash, Sample.readings)] Sample.watcher))) /\
  last_pool_known
    (snd (fst (watch_logs_loop true
                 [(Sample.line_green_502, Sample.readings);
                  (Sample.line_dash, Sample.readings)] Sample.watcher))) /\
  alert_kinds_only
    (snd (fst (watch_logs_loop true
                 [(Sample.line_green_502, Sample.readings);
                  (Sample.line_dash, Sample.readings)] Sample.watcher))).
Proof.
  apply (watch_logs_loop_invariants true
           [(Sample.line_green_502, Sample.readings);
            (Sample.line_dash, Sample.readings)] Sample.watcher).
  - unfold window_ok. vm_compute. lia.
  - intros p Hp. vm_compute in Hp. discriminate.
  - intros kind [t Ht]. vm_compute in Ht. discriminate.
Defined.


(** ** More on the loop *)

Lemma build_message_kind (a : Alert) (w : LogWatcher) :
  is_failover_message (build_message a w)
  = String.eqb (alert_type a) "failover".
Proof. now destruct a. Qed.

(** What sending an alert posts: nothing, or the message of the alert. *)
Lemma dispatch_posted (RA : bool) (alert : option Alert) (now : float)
    (reply : PostOutcome) (w : LogWatcher) :
  snd (dispatch RA alert now reply w) = [] \/
  exists a : Alert,
    alert = Some a /\ snd (dispatch RA alert now reply w) = [build_message a w].
Proof.
  rewrite dispatch_unfold. destruct alert as [a|]; [|auto].
  destruct (can_post RA w); [|auto].
  destruct (in_cooldown (alert_type a) now w); [auto|].
  right. exists a. auto.
Qed.

(** X14. A pass of the loop posts at most two messages: at most one
    failover message, and after it at most one error-rate message. *)
Theorem watch_logs_pass_posts :
  forall (REQUESTS_AVAILABLE : bool) (line : string) (env : Readings)
         (w : LogWatcher),
  exists first second : list SlackMessage,
    snd (watch_logs_pass REQUESTS_AVAILABLE line env w)
      = (first ++ second)%list /\
    (length first <= 1)%nat /\ (length second <= 1)%nat /\
    Forall (fun m => is_failover_message m = true) first /\
    Forall (fun m => is_failover_message m = false) second.
Proof.
  intros RA line env w. unfold watch_logs_pass.
  assert (exists first second : list SlackMessage,
             @nil SlackMessage = (first ++ second)%list /\
             (length first <= 1)%nat /\ (length second <= 1)%nat /\
             Forall (fun m => is_failover_message m = true) first /\
             Forall (fun m => is_failover_message m = false) second) as Hnil.
  { exists [], []. cbn. repeat split; auto. }
  destruct (PyStr.truthy line); cbn [negb]; [|exact Hnil].
  destruct (parse_log_line line (parse_clock env) w) as [[ld|] w1];
    [|exact Hnil].
  pose proof (check_failover_raises_failover ld w1) as Hkf.
  destruct (check_failover ld w1) as [fa w2]. cbn [fst] in Hkf.
  assert ((length (snd (dispatch RA fa (failover_clock env)
                          (failover_reply env) w2)) <= 1)%nat /\
          Forall (fun m => is_failover_message m = true)
            (snd (dispatch RA fa (failover_clock env) (failover_reply env)
                    w2))) as [Hl1 Hf1].
  { destruct (dispatch_posted RA fa (failover_clock env) (failover_reply env)
                w2) as [->|(a & -> & ->)]; cbn [length]; [auto|].
    split; [lia|]. constructor; [|constructor].
    now rewrite build_message_kind, (Hkf a eq_refl). }
  destruct (dispatch RA fa _ _ w2) as [[[u|e] w3] posted1];
    cbn [fst snd] in *.
  2:{ exists posted1, []. rewrite app_nil_r. cbn. auto. }
  destruct (PyStr.truthy_opt (upstream_status ld)).
  2:{ cbn [snd]. exists posted1, []. rewrite app_nil_r. cbn. auto. }
  pose proof (check_error_rate_raises_error_rate ld w3) as Hke.
  destruct (check_error_rate ld w3) as [[raised|e] w4]; cbn [fst] in Hke.
  2:{ cbn [snd]. exists posted1, []. rewrite app_nil_r. cbn. auto. }
  assert ((length (snd (dispatch RA raised (error_clock env)
                          (error_reply env) w4)) <= 1)%nat /\
          Forall (fun m => is_failover_message m = false)
            (snd (dispatch RA raised (error_clock env) (error_reply env)
                    w4))) as [Hl2 Hf2].
  { destruct (dispatch_posted RA raised (error_clock env) (error_reply env)
                w4) as [->|(a & -> & ->)]; cbn [length]; [auto|].
    split; [lia|]. constructor; [|constructor].
    now rewrite build_message_kind, (Hke a eq_refl). }
  destruct (dispatch RA raised _ _ w4) as [[[u'|e] w5] posted2];
    cbn [fst snd] in *; exists posted1, posted2; auto.
Qed.


(** X15. A line the parser gives no record for, the empty line of the
    end of the file included, changes nothing but the two counters of the
    parser: the pass ends normally, posts nothing, and leaves the
    settings, the state of both detectors, the times of the last alerts
    and the time of the last status report as they were. *)
Theorem watch_logs_pass_no_record :
  forall (REQUESTS_AVAILABLE : bool) (line : string) (env : Readings)
         (w : LogWatcher),
    fst (parse_log_line line (parse_clock env) w) = None ->
    fst (fst (watch_logs_pass REQUESTS_AVAILABLE line env w)) = Returns tt /\
    snd (watch_logs_pass REQUESTS_AVAILABLE line env w) = [] /\
    let w' := snd (fst (watch_logs_pass REQUESTS_AVAILABLE line env w)) in
    settings w' = settings w /\ detector_state w' = detector_state w /\
    last_alert_time w' = last_alert_time w /\
    _last_log_check w' = _last_log_check w.
Proof.
  intros RA line env w Hp. cbv zeta. unfold watch_logs_pass.
  destruct (PyStr.truthy line); cbn [negb]; [|repeat split].
  destruct (parse_log_line_frame line (parse_clock env) w) as (Hs & Hd & Ha).
  assert (_last_log_check (snd (parse_log_line line (parse_clock env) w))
          = _last_log_check w) as Hc.
  { unfold parse_log_line. split_matches; reflexivity. }
  destruct (parse_log_line line (parse_clock env) w) as [o w1].
  cbn [fst snd] in *. subst o. cbn [fst snd]. repeat split; assumption.
Qed.

Lemma watch_logs_pass_no_record_witness :
  fst (fst (watch_logs_pass true Sample.line_two_dots Sample.readings
              Sample.busy_watcher)) = Returns tt /\
  snd (watch_logs_pass true Sample.line_two_dots Sample.readings
         Sample.busy_watcher) = [].
Proof.
  destruct (watch_logs_pass_no_record true Sample.line_two_dots
              Sample.readings Sample.busy_watcher) as (H1 & H2 & _).
  - vm_compute. reflexivity.
  - split; [exact H1 | exact H2].
Defined.

(** Without a way to post, a pass does not get to [can_send_alert]: all
    it can raise is the exception of [check_error_rate]. *)
Lemma watch_logs_pass_cannot_post_raises (RA : bool) (line : string)
    (env : Readings) (w : LogWatcher) (e : exception) :
  can_post RA w = false ->
  fst (fst (watch_logs_pass RA line env w)) = Raises e ->
  e = ZeroDivisionError.
Proof.
  intros Hc. unfold watch_logs_pass.
  destruct (PyStr.truthy line); cbn [negb]; [|discriminate].
  destruct (parse_log_line_frame line (parse_clock env) w) as (Hs1 & _).
  destruct (parse_log_line line (parse_clock env) w) as [[ld|] w1];
    cbn [fst snd] in *; [|discriminate].
  destruct (check_failover_frame ld w1) as (Hs2 & _).
  destruct (check_failover ld w1) as [fa w2]. cbn [snd] in *.
  assert (can_post RA w2 = false) as Hc2.
  { rewrite (can_post_settings RA w1 w2 Hs2).
    now rewrite (can_post_settings RA w w1 Hs1). }
  rewrite (dispatch_cannot_post RA fa _ _ w2 Hc2).
  destruct (PyStr.truthy_opt (upstream_status ld)); [|discriminate].
  pose proof (check_error_rate_raises_division ld w2 e) as Hdiv.
  destruct (check_error_rate_frame ld w2) as (Hs4 & _).
  destruct (check_error_rate ld w2) as [[raised|e'] w4]; cbn [fst snd] in *.
  - rewrite (dispatch_cannot_post RA raised _ _ w4)
      by now rewrite (can_post_settings RA w2 w4 Hs4).
    discriminate.
  - intros [= ->]. now apply Hdiv.
Qed.

(** X16. Without a webhook (unset or empty), or without the [requests]
    library, or in maintenance mode, the loop over any lines posts
    nothing and leaves the times of the last alerts as they were: the
    cooldown of no kind is consumed by an alert that could not go out.
    Nor does the loop get to [can_send_alert] then: all it can raise is the
    [ZeroDivisionError] of [check_error_rate]. *)
Theorem watch_logs_loop_cannot_post :
  forall (REQUESTS_AVAILABLE : bool) (input : list (string * Readings))
         (w : LogWatcher),
    can_post REQUESTS_AVAILABLE w = false ->
    snd (watch_logs_loop REQUESTS_AVAILABLE input w) = [] /\
    last_alert_time (snd (fst (watch_logs_loop REQUESTS_AVAILABLE input w)))
      = last_alert_time w /\
    forall e : exception,
      fst (fst (watch_logs_loop REQUESTS_AVAILABLE input w)) = Raises e ->
      e = ZeroDivisionError.
Proof.
  intros RA input w Hc.
  destruct (watch_logs_loop_silent RA input w Hc) as [H1 H2].
  split; [exact H1|]. split; [exact H2|]. clear H1 H2.
  revert w Hc. induction input as [|[line env] input IH]; intros w Hc e;
    [discriminate|].
  cbn [watch_logs_loop].
  pose proof (watch_logs_pass_cannot_post_raises RA line env w e Hc) as Hr.
  destruct (watch_logs_pass_settings RA line env w) as [Hs _].
  destruct (watch_logs_pass RA line env w) as [[[u|e'] w1] posted];
    cbn [fst snd] in *; [|exact Hr].
  specialize (IH w1). rewrite (can_post_settings RA w w1 Hs) in IH.
  specialize (IH Hc e).
  destruct (watch_logs_loop RA input w1) as [[r w2] posted'].
  exact IH.
Qed.

Lemma watch_logs_loop_cannot_post_witness :
  snd (watch_logs_loop true
         [(Sample.line_green_502, Sample.readings)]
         (set_error_window [false; false; false; true]
            (set_last_pool (Some "blue")
               (init None 20%float 5 300 false 1762214400%float)))) = [].
Proof.
  apply (watch_logs_loop_cannot_post true
           [(Sample.line_green_502, Sample.readings)]
           (set_error_window [false; false; false; true]
              (set_last_pool (Some "blue")
                 (init None 20%float 5 300 false 1762214400%float)))).
  reflexivity.
Defined.

(** With a window size of 0, a pass over a record that has a status
    raises: in [can_send_alert] if the failover alert gets there and the
    cooldown does not convert, and otherwise in [check_error_rate]. *)
Lemma watch_logs_pass_empty_window (RA : bool) (line : string)
    (env : Readings) (w w1 : LogWatcher) (ld : LogData) :
  window_ok w ->
  parse_log_line line (parse_clock env) w = (Some ld, w1) ->
  window_size w = 0%nat ->
  PyStr.truthy_opt (upstream_status ld) = true ->
  exists e : exception,
    fst (fst (watch_logs_pass RA line env w)) = Raises e.
Proof.
  intros Hok Hp H0 Ht.
  rewrite (watch_logs_pass_unfold RA line env w w1 ld Hp).
  destruct (parse_log_line_frame line (parse_clock env) w) as (Hs1 & Hd1 & _).
  rewrite Hp in Hs1, Hd1. cbn [snd] in Hs1, Hd1.
  destruct (check_failover_frame ld w1) as (Hs2 & He2 & _).
  destruct (check_failover ld w1) as [fa w2]. cbn [snd] in *.
  destruct (dispatch_frame RA fa (failover_clock env) (failover_reply env)
              w2) as (Hs3 & Hd3 & _).
  destruct (dispatch RA fa _ _ w2) as [[[u|e] w3] posted1];
    cbn [fst snd] in *; [|eauto].
  rewrite Ht.
  apply settings_eq in Hs1 as (_ & _ & Hz1 & _).
  apply settings_eq in Hs2 as (_ & _ & Hz2 & _).
  apply settings_eq in Hs3 as (_ & _ & Hz3 & _).
  apply detector_state_eq in Hd1 as (_ & _ & He1).
  apply detector_state_eq in Hd3 as (_ & _ & He3).
  assert (window_ok w3) as Hok3.
  { unfold window_ok in *. rewrite Hz3, Hz2, Hz1, He3, He2, He1. exact Hok. }
  destruct (check_error_rate_raises_zero ld w3 Hok3) as [_ Hr].
  specialize (Hr (conj (eq_trans Hz3 (eq_trans Hz2 (eq_trans Hz1 H0))) Ht)).
  destruct (check_error_rate ld w3) as [[raised|e] w4]; cbn [fst] in Hr;
    [discriminate | eauto].
Qed.

(** X17. With a window size of 0 the loop cannot get past the first
    record that has a status: the pass over it raises, and the loop ends
    there without reading the lines after it. With a cooldown that
    converts to a float, what the pass raises is the [ZeroDivisionError]
    of [check_error_rate], and a pass over a parsed record raises in no
    other case. *)
Theorem watch_logs_pass_raises :
  forall (REQUESTS_AVAILABLE : bool) (line : string) (env : Readings)
         (rest : list (string * Readings)) (w w1 : LogWatcher)
         (ld : LogData),
    window_ok w ->
    parse_log_line line (parse_clock env) w = (Some ld, w1) ->
    (gate_safe w ->
     forall e : exception,
       fst (fst (watch_logs_pass REQUESTS_AVAILABLE line env w)) = Raises e
       <-> e = ZeroDivisionError /\ window_size w = 0%nat /\
           PyStr.truthy_opt (upstream_status ld) = true) /\
    (window_size w = 0%nat ->
     PyStr.truthy_opt (upstream_status ld) = true ->
     (exists e : exception,
         fst (fst (watch_logs_pass REQUESTS_AVAILABLE line env w))
         = Raises e) /\
     watch_logs_loop REQUESTS_AVAILABLE ((line, env) :: rest) w
     = watch_logs_pass REQUESTS_AVAILABLE line env w).
Proof.
  intros RA line env rest w w1 ld Hok Hp. split.
  - intros Hg e.
    destruct (parse_log_line_frame line (parse_clock env) w) as (Hs & Hd & _).
    rewrite Hp in Hs, Hd. cbn [snd] in Hs, Hd.
    assert (window_ok w1) as Hok1 by now apply (window_ok_same w).
    apply settings_eq in Hs as (_ & _ & Hz & _).
    pose proof (check_error_rate_raises_iff ld w1 e Hok1) as Hr.
    rewrite Hz in Hr. rewrite <- Hr.
    destruct (watch_logs_pass_detectors RA line env w w1 ld Hg Hp)
      as (_ & _ & ->).
    destruct (fst (check_error_rate ld w1)) as [o|e']; split; congruence.
  - intros H0 Ht.
    destruct (watch_logs_pass_empty_window RA line env w w1 ld Hok Hp H0 Ht)
      as [e He].
    split; [eauto|]. cbn [watch_logs_loop].
    destruct (watch_logs_pass RA line env w) as [[[u|e'] w2] posted];
      cbn [fst] in He; [discriminate | reflexivity].
Qed.

Lemma watch_logs_pass_raises_witness :
  watch_logs_loop true
    [(Sample.line_green_502, Sample.readings);
     (Sample.line_dash, Sample.readings)]
    (init None 2%float 0 300 false 1762214400%float)
  = watch_logs_pass true Sample.line_green_502 Sample.readings
      (init None 2%float 0 300 false 1762214400%float) /\
  fst (fst (watch_logs_pass true Sample.line_green_502 Sample.readings
              (init None 2%float 0 300 false 1762214400%float)))
  = Raises ZeroDivisionError.
Proof.
  destruct (watch_logs_pass_raises true Sample.line_green_502 Sample.readings
              [(Sample.line_dash, Sample.readings)]
              (init None 2%float 0 300 false 1762214400%float)
              (snd (parse_log_line Sample.line_green_502
                      (parse_clock Sample.readings)
                      (init None 2%float 0 300 false 1762214400%float)))
              (Sample.record_green_502 (parse_clock Sample.readings)))
    as [H1 H2].
  - unfold window_ok. vm_compute. lia.
  - vm_compute. reflexivity.
  - split.
    + apply H2; reflexivity.
    + apply H1; [unfold gate_safe; vm_compute; discriminate|].
      repeat split.
Defined.

(** The record the parser returns depends on the line and the clock
    only. *)
Lemma parse_log_line_record (line ts : string) (w v : LogWatcher) :
  fst (parse_log_line line ts w) = fst (parse_log_line line ts v).
Proof. unfold parse_log_line. split_matches; reflexivity. Qed.

Lemma check_failover_depends (ld : LogData) (w v : LogWatcher) :
  last_pool w = last_pool v ->
  fst (check_failover ld w) = fst (check_failover ld v) /\
  last_pool (snd (check_failover ld w)) = last_pool (snd (check_failover ld v)).
Proof.
  intros Hl. unfold check_failover. rewrite Hl.
  split_matches; split; try reflexivity; exact Hl.
Qed.

Lemma detection_eq (w v : LogWatcher) :
  detection w = detection v <->
  last_pool w = last_pool v /\ error_window w = error_window v /\
  error_threshold w = error_threshold v /\ window_size w = window_size v.
Proof.
  unfold detection. split.
  - intros [= -> -> -> ->]. auto.
  - intros (-> & -> & -> & ->). reflexivity.
Qed.

Lemma detection_same (w v : LogWatcher) :
  settings v = settings w -> detector_state v = detector_state w ->
  detection v = detection w.
Proof.
  intros Hs Hd. apply settings_eq in Hs as (_ & Ht & Hz & _).
  apply detector_state_eq in Hd as (Hl & _ & He).
  apply detection_eq. auto.
Qed.

Lemma watch_logs_pass_detection (RA RA' : bool) (line : string)
    (env env' : Readings) (w v : LogWatcher) :
  gate_safe w -> gate_safe v ->
  detection w = detection v -> parse_clock env = parse_clock env' ->
  fst (fst (watch_logs_pass RA line env w))
    = fst (fst (watch_logs_pass RA' line env' v)) /\
  detection (snd (fst (watch_logs_pass RA line env w)))
    = detection (snd (fst (watch_logs_pass RA' line env' v))).
Proof.
  intros Hgw Hgv Hd Hc.
  destruct (PyStr.truthy line) eqn:Hline.
  2:{ unfold watch_logs_pass. rewrite Hline. cbn. auto. }
  pose proof (parse_log_line_record line (parse_clock env) w v) as Hrec.
  rewrite Hc in Hrec at 2.
  destruct (parse_log_line_frame line (parse_clock env) w) as (Hs1 & Hd1 & _).
  destruct (parse_log_line_frame line (parse_clock env') v) as (Hs1' & Hd1' & _).
  destruct (parse_log_line line (parse_clock env) w) as [o w1] eqn:Hp.
  destruct (parse_log_line line (parse_clock env') v) as [o' v1] eqn:Hp'.
  cbn [fst snd] in *. subst o'.
  assert (detection w1 = detection v1) as Hd1v.
  { rewrite (detection_same w w1 Hs1 Hd1), (detection_same v v1 Hs1' Hd1').
    exact Hd. }
  destruct o as [ld|].
  2:{ unfold watch_logs_pass. rewrite Hline, Hp, Hp'. cbn. auto. }
  apply detection_eq in Hd1v as (Hl & He & Ht & Hz).
  destruct (check_failover_depends ld w1 v1 Hl) as [_ Hlp].
  destruct (check_error_rate_depends ld w1 v1 He Hz Ht) as [Hfst Hwin].
  destruct (watch_logs_pass_detectors RA line env w w1 ld Hgw Hp)
    as (H1 & H2 & Hr).
  destruct (watch_logs_pass_detectors RA' line env' v v1 ld Hgv Hp')
    as (H1' & H2' & Hr').
  split.
  - rewrite Hr, Hr'. now rewrite Hfst.
  - destruct (watch_logs_pass_settings RA line env w) as [H3 _].
    destruct (watch_logs_pass_settings RA' line env' v) as [H3' _].
    apply settings_eq in H3 as (_ & H3t & H3z & _).
    apply settings_eq in H3' as (_ & H3t' & H3z' & _).
    apply settings_eq in Hs1 as (_ & Hs1t & Hs1z & _).
    apply settings_eq in Hs1' as (_ & Hs1t' & Hs1z' & _).
    apply detection_eq. repeat split; congruence.
Qed.

(** X18. Detection does not depend on the gate, as long as the gate does
    not raise. Two watchers whose cooldowns convert to floats, that agree
    on the stored pool, the window, the threshold and the window size, and
    read the same lines at the same parser clock, end the loop the same
    way and agree on these four again, whatever their webhooks, cooldowns,
    maintenance modes and times of last alerts are, whether or not
    [requests] is there, and whatever the clock and the webhook reply. *)
Theorem watch_logs_loop_detection :
  forall (RA RA' : bool) (input input' : list (string * Readings))
         (w v : LogWatcher),
    gate_safe w -> gate_safe v ->
    detection w = detection v ->
    lines_read input = lines_read input' ->
    fst (fst (watch_logs_loop RA input w))
      = fst (fst (watch_logs_loop RA' input' v)) /\
    detection (snd (fst (watch_logs_loop RA input w)))
      = detection (snd (fst (watch_logs_loop RA' input' v))).
Proof.
  intros RA RA' input. induction input as [|[line env] input IH];
    intros [|[line' env'] input'] w v Hgw Hgv Hd Hl; try discriminate.
  - cbn. auto.
  - cbn [lines_read map fst snd] in Hl. injection Hl as <- Hc Hl.
    cbn [watch_logs_loop].
    destruct (watch_logs_pass_detection RA RA' line env env' w v Hgw Hgv
                Hd Hc) as [Hr Hd1].
    destruct (watch_logs_pass_settings RA line env w) as [Hsw _].
    destruct (watch_logs_pass_settings RA' line env' v) as [Hsv _].
    destruct (watch_logs_pass RA line env w) as [[r w1] posted].
    destruct (watch_logs_pass RA' line env' v) as [[r' v1] posted'].
    cbn [fst snd] in *. subst r'.
    destruct r as [u|e]; [|cbn; auto].
    specialize (IH input' w1 v1 (gate_safe_settings w w1 Hsw Hgw)
                  (gate_safe_settings v v1 Hsv Hgv) Hd1 Hl).
    destruct (watch_logs_loop RA input w1) as [[r2 w2] p2].
    destruct (watch_logs_loop RA' input' v1) as [[r2' v2] p2'].
    exact IH.
Qed.

Lemma watch_logs_loop_detection_witness :
  detection
    (snd (fst (watch_logs_loop true
                 [(Sample.line_green_502, Sample.readings)]
                 Sample.busy_watcher)))
  = detection
      (snd (fst (watch_logs_loop false
                   [(Sample.line_green_502,
                     with_replies PostRaises PostRaises Sample.readings)]
                   (set_error_window [false; false; false; true]
                      (set_last_pool (Some "blue")
                         Sample.maintenance_watcher))))).
Proof.
  apply (watch_logs_loop_detection true false
           [(Sample.line_green_502, Sample.readings)]
           [(Sample.line_green_502,
             with_replies PostRaises PostRaises Sample.readings)]
           Sample.busy_watcher
           (set_error_window [false; false; false; true]
              (set_last_pool (Some "blue") Sample.maintenance_watcher)));
    try reflexivity; unfold gate_safe; vm_compute; discriminate.
Defined.

Lemma check_error_rate_total (ld : LogData) (w : LogWatcher) :
  _total_lines_processed (snd (check_error_rate ld w))
  = _total_lines_processed w.
Proof. unfold check_error_rate. split_matches; reflexivity. Qed.

Lemma status_report_total (current_time : float) (w : LogWatcher) :
  _total_lines_processed (status_report current_time w)
  = _total_lines_processed w.
Proof. unfold status_report. split_matches; reflexivity. Qed.

Lemma parse_log_line_total (line ts : string) (w : LogWatcher) :
  _total_lines_processed (snd (parse_log_line line ts w))
  = S (_total_lines_processed w).
Proof. unfold parse_log_line. split_matches; reflexivity. Qed.

Lemma watch_logs_pass_total (RA : bool) (line : string) (env : Readings)
    (w : LogWatcher) :
  _total_lines_processed (snd (fst (watch_logs_pass RA line env w)))
  = ((if PyStr.truthy line then 1 else 0) + _total_lines_processed w)%nat.
Proof.
  unfold watch_logs_pass.
  destruct (PyStr.truthy line); cbn [negb]; [|reflexivity].
  pose proof (parse_log_line_total line (parse_clock env) w) as H1.
  destruct (parse_log_line line (parse_clock env) w) as [[ld|] w1];
    cbn [fst snd] in *; [|exact H1].
  destruct (check_failover_frame ld w1) as (_ & _ & _ & H2).
  destruct (check_failover ld w1) as [fa w2]. cbn [snd] in H2.
  destruct (dispatch_frame RA fa (failover_clock env) (failover_reply env)
              w2) as (_ & _ & H3).
  destruct (dispatch RA fa _ _ w2) as [[[u|e] w3] posted1];
    cbn [fst snd] in *; [|lia].
  destruct (PyStr.truthy_opt (upstream_status ld)).
  2:{ cbn [fst snd]. rewrite status_report_total. lia. }
  pose proof (check_error_rate_total ld w3) as H4.
  destruct (check_error_rate ld w3) as [[raised|e] w4]; cbn [fst snd] in *;
    [|lia].
  destruct (dispatch_frame RA raised (error_clock env) (error_reply env)
              w4) as (_ & _ & H5).
  destruct (dispatch RA raised _ _ w4) as [[[u'|e] w5] posted2];
    cbn [fst snd] in *; [|lia].
  rewrite status_report_total. lia.
Qed.


(** X19. [_total_lines_processed], the figure a failover message reports
    as its total of requests, counts the non-empty lines read: a loop
    that ends normally has raised it by the number of non-empty lines of
    its input, parsed to a record or not. *)
Theorem watch_logs_loop_total :
  forall (REQUESTS_AVAILABLE : bool) (input : list (string * Readings))
         (w : LogWatcher),
    fst (fst (watch_logs_loop REQUESTS_AVAILABLE input w)) = Returns tt ->
    _total_lines_processed
      (snd (fst (watch_logs_loop REQUESTS_AVAILABLE input w)))
    = (_total_lines_processed w + non_empty_lines input)%nat.
Proof.
  intros RA input. induction input as [|[line env] input IH]; intros w.
  - cbn. lia.
  - cbn [watch_logs_loop non_empty_lines].
    pose proof (watch_logs_pass_total RA line env w) as H1.
    destruct (watch_logs_pass RA line env w) as [[[u|e] w1] posted];
      cbn [fst snd] in *; [|discriminate].
    specialize (IH w1).
    destruct (watch_logs_loop RA input w1) as [[r w2] posted'].
    cbn [fst snd] in *. intros Hr. rewrite (IH Hr). lia.
Qed.

Lemma watch_logs_loop_total_witness :
  _total_lines_processed
    (snd (fst (watch_logs_loop true
                 [(Sample.line_green_502, Sample.readings);
                  ("", Sample.readings);
                  (Sample.line_two_dots, Sample.readings);
                  (Sample.newline, Sample.readings)] Sample.watcher)))
  = (_total_lines_processed Sample.watcher + 3)%nat.
Proof.
  apply (watch_logs_loop_total true
           [(Sample.line_green_502, Sample.readings);
            ("", Sample.readings);
            (Sample.line_two_dots, Sample.readings);
            (Sample.newline, Sample.readings)] Sample.watcher).
  vm_compute. reflexivity.
Defined.


(** ** The alert is raised again *)

(** X20. [check_error_rate] raises on the level of the window, not on a
    change of it: after a call that raised an alert, a record whose sample
    is equal to the oldest sample of the window, which it evicts, raises
    the alert again, with the same rate, count and size. *)
Theorem check_error_rate_raises_again :
  forall (ld ld' : LogData) (w w' : LogWatcher) (rate threshold : float)
         (size count : nat) (time status : string) (oldest : bool)
         (rest : list bool),
    window_ok w ->
    check_error_rate ld w
      = (Returns (Some (error_alert rate threshold size count time)), w') ->
    error_window w' = oldest :: rest ->
    upstream_status ld' = Some status ->
    status <> "" ->
    PyStr.startswith status "5"%char = oldest ->
    fst (check_error_rate ld' w')
      = Returns (Some (error_alert rate threshold size count
                         (timestamp ld'))) /\
    error_window (snd (check_error_rate ld' w')) = (rest ++ [oldest])%list.
Proof.
  intros ld ld' w w' rate threshold size count time status oldest rest
         Hok Hc Hwin Hs Hne Hx.
  destruct (check_error_rate_alert_shape ld w
              (error_alert rate threshold size count time) Hok)
    as (rate' & Hfields & Hlen & Hpos & _);
    [now rewrite Hc|].
  destruct (check_error_rate_frame ld w) as (Hset & _).
  rewrite Hc in Hset, Hlen, Hfields. cbn [snd] in Hset, Hlen, Hfields.
  injection Hfields as -> -> -> -> _.
  apply settings_eq in Hset as (_ & Ht & Hz & _).
  revert Hc. unfold check_error_rate at 1.
  destruct (upstream_status ld) as [s|]; [|discriminate].
  destruct (PyStr.truthy s); cbn [negb]; [|discriminate].
  cbn [error_window set_error_window window_size error_threshold].
  set (win := deque_append (window_size w) (error_window w) _).
  destruct (length win <? window_size w)%nat; [discriminate|].
  destruct (PyFloat.truediv (sum win) (length win)) as [ratio|] eqn:Hd;
    [|discriminate].
  destruct (PrimFloat.ltb (error_threshold w) (PrimFloat.mul ratio 100))
    eqn:Hgt; [|discriminate].
  intros Heq.
  assert (w' = set_error_window win w) as -> by congruence.
  assert (PyFloat.round2 (PrimFloat.mul ratio 100) = rate') as Hrate
    by congruence.
  clear Heq. cbn [error_window set_error_window] in Hwin, Hlen |- *.
  unfold check_error_rate. rewrite Hs.
  apply truthy_true in Hne. rewrite Hne. cbn [negb].
  cbn [error_window set_error_window window_size error_threshold].
  rewrite Hx.
  assert (deque_append (window_size w) win oldest = (rest ++ [oldest])%list)
    as ->.
  { unfold deque_append. rewrite Hwin. cbn [app length tail].
    rewrite Hwin in Hlen. cbn [length] in Hlen.
    destruct (Nat.ltb_spec (window_size w) (S (length (rest ++ [oldest]))));
      [reflexivity|].
    rewrite length_app in *. cbn [length] in *. lia. }
  assert (length (rest ++ [oldest]) = length win) as Hl.
  { rewrite Hwin, length_app. cbn. lia. }
  assert (sum (rest ++ [oldest]) = sum win) as Hsum.
  { rewrite Hwin, sum_app. cbn. lia. }
  rewrite Hl, Hsum, Hlen, Nat.ltb_irrefl.
  rewrite Hlen in Hd. rewrite Hd, Hgt. cbn [fst snd error_window set_error_window].
  split; [|reflexivity]. now rewrite Hrate.
Qed.

Lemma check_error_rate_raises_again_witness :
  fst (check_error_rate (Sample.record "blue" (Some "200") "t2")
         (snd (check_error_rate (Sample.record "blue" (Some "500") "t1")
                 Sample.busy_watcher)))
  = Returns (Some (error_alert 40%float 20%float 5 2 "t2")).
Proof.
  apply (check_error_rate_raises_again
           (Sample.record "blue" (Some "500") "t1")
           (Sample.record "blue" (Some "200") "t2")
           Sample.busy_watcher
           (snd (check_error_rate (Sample.record "blue" (Some "500") "t1")
                   Sample.busy_watcher))
           40%float 20%float 5 2 "t1" "200" false
           [false; false; true; true]).
  - unfold window_ok. vm_compute. lia.
  - vm_compute. reflexivity.
  - vm_compute. reflexivity.
  - reflexivity.
  - discriminate.
  - reflexivity.
Defined.

(** ** When the gate raises *)

(** X21. [can_send_alert] raises exactly when the kind is in cooldown and
    [cooldown_sec] does not convert to a float: the refusal computes
    [cooldown_sec - time_since_last] for its message, an integer minus a
    float, and that is an [OverflowError]; the watcher is left as it was.
    [send_slack_alert] calls the gate outside its handler, so it raises
    exactly when it gets to the gate and the gate raises, and then it
    posts nothing and leaves the watcher as it was. 2^1024 - 2^970 is the
    least positive integer that does not convert. *)
Theorem can_send_alert_raises :
  forall (REQUESTS_AVAILABLE : bool) (alert_data : Alert) (kind : string)
         (now : float) (reply : PostOutcome) (w : LogWatcher)
         (e : exception),
    (fst (can_send_alert kind now w) = Raises e <->
     e = OverflowError /\ in_cooldown kind now w = true /\
     PyFloat.of_int (cooldown_sec w) = None) /\
    (in_cooldown kind now w = true -> snd (can_send_alert kind now w) = w) /\
    (fst (fst (send_slack_alert REQUESTS_AVAILABLE alert_data now reply w))
       = Raises e <->
     e = OverflowError /\ can_post REQUESTS_AVAILABLE w = true /\
     in_cooldown (alert_type alert_data) now w = true /\
     PyFloat.of_int (cooldown_sec w) = None) /\
    (fst (fst (send_slack_alert REQUESTS_AVAILABLE alert_data now reply w))
       = Raises e ->
     send_slack_alert REQUESTS_AVAILABLE alert_data now reply w
       = (Raises e, w, [])) /\
    PyFloat.of_int (2 ^ 1024 - 2 ^ 970 - 1)
      = Some 0x1.fffffffffffffp+1023%float /\
    PyFloat.of_int (2 ^ 1024 - 2 ^ 970) = None /\
    PyFloat.of_int (- (2 ^ 1024 - 2 ^ 970)) = None /\
    PyFloat.of_int (10 ^ 400) = None.
Proof.
  intros RA a kind now reply w e.
  split; [|split; [|split; [|split; [|repeat split; vm_compute; reflexivity]]]].
  - unfold can_send_alert, in_cooldown, last_time, PyFloat.int_sub.
    destruct (PyFloat.lt_int _ _); cbn [fst].
    + destruct (PyFloat.of_int (cooldown_sec w)); cbn [fst].
      * split; [discriminate | intros (_ & _ & [=])].
      * split; [intros [= <-]; auto | intros (-> & _); reflexivity].
    + split; [discriminate | intros (_ & [=] & _)].
  - unfold can_send_alert, in_cooldown, last_time. intros ->.
    now destruct (PyFloat.int_sub _ _).
  - rewrite send_slack_alert_unfold.
    destruct (can_post RA w);
      [destruct (in_cooldown (alert_type a) now w)|]; cbn [fst].
    + destruct (PyFloat.of_int (cooldown_sec w)).
      * split; [discriminate | intros (_ & _ & _ & [=])].
      * split; [intros [= <-]; auto | intros (-> & _); reflexivity].
    + split; [discriminate | intros (_ & _ & [=] & _)].
    + split; [discriminate | intros (_ & [=] & _)].
  - rewrite send_slack_alert_unfold.
    destruct (can_post RA w);
      [destruct (in_cooldown (alert_type a) now w)|]; cbn [fst];
      [|discriminate..].
    destruct (PyFloat.of_int (cooldown_sec w)); [discriminate|].
    now intros [= <-].
Qed.

(** X22. With a cooldown that converts to a float, a pass of the loop over
    a record the parser accepts runs the failover check and the error-rate
    check, each on its own part of the watcher: the stored pool after the
    pass is the one [check_failover] leaves and the window the one
    [check_error_rate] leaves, whatever the other check did, and the pass
    ends as [check_error_rate] does. The stored pool is the one
    [check_failover] leaves whatever the cooldown. And when both alerts
    are raised and approved, the pass posts the failover message first
    and the error-rate message second. *)
Theorem watch_logs_pass_both_checks :
  forall (REQUESTS_AVAILABLE : bool) (line : string) (env : Readings)
         (w w1 : LogWatcher) (ld : LogData),
    parse_log_line line (parse_clock env) w = (Some ld, w1) ->
    last_pool (snd (fst (watch_logs_pass REQUESTS_AVAILABLE line env w)))
      = last_pool (snd (check_failover ld w1)) /\
    (gate_safe w ->
     error_window (snd (fst (watch_logs_pass REQUESTS_AVAILABLE line env w)))
       = error_window (snd (check_error_rate ld w1)) /\
     fst (fst (watch_logs_pass REQUESTS_AVAILABLE line env w))
     = match fst (check_error_rate ld w1) with
       | Raises e => Raises e
       | Returns _ => Returns tt
       end) /\
    (forall f e : Alert,
        fst (check_failover ld w1) = Some f ->
        fst (check_error_rate ld w1) = Returns (Some e) ->
        REQUESTS_AVAILABLE = true ->
        PyStr.truthy_opt (slack_webhook w) = true ->
        maintenance_mode w = false ->
        in_cooldown "failover" (failover_clock env) w = false ->
        in_cooldown "high_error_rate" (error_clock env) w = false ->
        fst (fst (watch_logs_pass REQUESTS_AVAILABLE line env w))
          = Returns tt /\
        snd (watch_logs_pass REQUESTS_AVAILABLE line env w)
          = [build_message f w1; build_message e w1]).
Proof.
  intros RA line env w w1 ld Hp. split; [|split].
  - now apply (watch_logs_pass_last_pool RA line env w w1 ld).
  - intros Hg. now apply (watch_logs_pass_detectors RA line env w w1 ld).
  - intros f e Hf He ->.
    now apply (watch_logs_pass_both line env w w1 ld f e).
Qed.

Lemma watch_logs_pass_both_checks_witness :
  snd (watch_logs_pass true Sample.line_green_502 Sample.readings
         Sample.busy_watcher)
  = [failover_message "blue" "green" "2025-11-04T00:00:01" 1;
     error_rate_message 40%float 20%float 2 5 "2025-11-04T00:00:01"].
Proof.
  pose proof (watch_logs_pass_both_checks true Sample.line_green_502
                Sample.readings Sample.busy_watcher
                (snd (parse_log_line Sample.line_green_502
                        (parse_clock Sample.readings) Sample.busy_watcher))
                (Sample.record_green_502 "2025-11-04T00:00:01")) as H.
  destruct H as (_ & _ & H); [vm_compute; reflexivity|].
  destruct (H (failover_event "blue" "green" "2025-11-04T00:00:01")
              (error_alert 40%float 20%float 5 2 "2025-11-04T00:00:01"))
    as [_ Hposted]; [vm_compute; reflexivity .. |].
  exact Hposted.
Defined.

(** X23. With a cooldown that does not convert to a float, a failover
    alert that gets to the gate while its kind is in cooldown ends the
    loop: the pass raises [OverflowError] and posts nothing, the window
    and the times of the last alerts are left as they were, so that
    [check_error_rate] did not see the record, and the lines after it are
    not read. *)
Theorem watch_logs_pass_overflow :
  forall (REQUESTS_AVAILABLE : bool) (line : string) (env : Readings)
         (rest : list (string * Readings)) (w w1 : LogWatcher)
         (ld : LogData) (f : Alert),
    parse_log_line line (parse_clock env) w = (Some ld, w1) ->
    fst (check_failover ld w1) = Some f ->
    can_post REQUESTS_AVAILABLE w = true ->
    in_cooldown "failover" (failover_clock env) w = true ->
    ~ gate_safe w ->
    fst (fst (watch_logs_pass REQUESTS_AVAILABLE line env w))
      = Raises OverflowError /\
    snd (watch_logs_pass REQUESTS_AVAILABLE line env w) = [] /\
    error_window (snd (fst (watch_logs_pass REQUESTS_AVAILABLE line env w)))
      = error_window w /\
    last_alert_time (snd (fst (watch_logs_pass REQUESTS_AVAILABLE line env w)))
      = last_alert_time w /\
    watch_logs_loop REQUESTS_AVAILABLE ((line, env) :: rest) w
      = watch_logs_pass REQUESTS_AVAILABLE line env w.
Proof.
  intros RA line env rest w w1 ld f Hp Hf Hcp Hin Hg.
  cbn [watch_logs_loop].
  rewrite (watch_logs_pass_unfold RA line env w w1 ld Hp).
  destruct (parse_log_line_frame line (parse_clock env) w) as (Hs1 & Hd1 & Ha1).
  rewrite Hp in Hs1, Hd1, Ha1. cbn [snd] in Hs1, Hd1, Ha1.
  pose proof (check_failover_raises_failover ld w1 f Hf) as Hkf.
  destruct (check_failover_frame ld w1) as (Hs2 & He2 & Ha2 & _).
  destruct (check_failover ld w1) as [fa w2]. cbn [fst snd] in *. subst fa.
  rewrite dispatch_unfold.
  rewrite (can_post_settings RA w1 w2 Hs2), (can_post_settings RA w w1 Hs1),
    Hcp.
  apply detector_state_eq in Hd1 as (_ & _ & He1).
  apply settings_eq in Hs1 as (_ & _ & _ & Hc1 & _).
  apply settings_eq in Hs2 as (_ & _ & _ & Hc2 & _).
  replace (in_cooldown (alert_type f) (failover_clock env) w2) with true.
  2:{ rewrite Hkf. symmetry. etransitivity; [|exact Hin].
      apply in_cooldown_depends; congruence. }
  replace (PyFloat.of_int (cooldown_sec w2)) with (@None float).
  2:{ rewrite Hc2, Hc1. unfold gate_safe in Hg.
      destruct (PyFloat.of_int (cooldown_sec w)); [|reflexivity].
      exfalso. apply Hg. discriminate. }
  cbn [fst snd]. repeat split; congruence.
Qed.

Lemma watch_logs_pass_overflow_witness :
  watch_logs_loop true
    [(Sample.line_green_502, Sample.readings);
     (Sample.line_dash, Sample.readings)] Sample.overflow_watcher
  = watch_logs_pass true Sample.line_green_502 Sample.readings
      Sample.overflow_watcher /\
  fst (fst (watch_logs_pass true Sample.line_green_502 Sample.readings
              Sample.overflow_watcher)) = Raises OverflowError.
Proof.
  destruct (watch_logs_pass_overflow true Sample.line_green_502
              Sample.readings [(Sample.line_dash, Sample.readings)]
              Sample.overflow_watcher
              (snd (parse_log_line Sample.line_green_502
                      (parse_clock Sample.readings) Sample.overflow_watcher))
              (Sample.record_green_502 (parse_clock Sample.readings))
              (failover_event "blue" "green" (parse_clock Sample.readings)))
    as (H1 & _ & _ & _ & H2).
  - vm_compute. reflexivity.
  - vm_compute. reflexivity.
  - reflexivity.
  - vm_compute. reflexivity.
  - unfold gate_safe. vm_compute. congruence.
  - split; [exact H2 | exact H1].
Defined.
